(** * auto_message: comment classification, tone resolution, prompt
      composition and reply orchestration

    A shallow embedding of [src/app.py] (class [CommentReplyAI]) and
    [src/prompt.py] (class [PromptGenerator]).

    Conventions of the embedding.
    - A Python [str] is a [string]: one character per element for ASCII
      text, the bytes of the UTF-8 encoding otherwise (on which [in] with an
      ASCII keyword, [==] and concatenation agree with the operations on
      code points). The operators the source uses ([in], [==], f-string
      splicing, [.strip()]) are defined below on that type.
    - [str.lower] belongs to the Python runtime (its Unicode case table is
      not part of the repository), so everything that calls it is stated in
      a section over an arbitrary [str_lower]; [ascii_lower] is the instance
      used to run the model on ASCII text.
    - A [dict] is a [gmap]; [d.get(k)] is [d !! k], [d[k]] raises [KeyError]
      when the key is missing, [k not in d] is a lookup that gives [None].
    - Code that can raise returns an [outcome]; the body of the [try] block
      of [generate_reply] runs in a small state-and-exception monad whose
      state holds the local variables the [except] handler inspects and the
      state of the generation provider. *)

From Stdlib Require Import Ascii String ZArith Floats.
From stdpp Require Import base option list strings gmap fin_maps.

Local Open Scope Z_scope.

(** ** Python strings *)

Module PyStr.

(** The double quote character (code 34), for the places where the
    source's templates contain one. *)
Definition dquote : string := String (ascii_of_nat 34) EmptyString.

(** [s.startswith(prefix)] *)
Fixpoint startswith (pre s : string) : bool :=
  match pre, s with
  | EmptyString, _ => true
  | String _ _, EmptyString => false
  | String a pre', String b s' => Ascii.eqb a b && startswith pre' s'
  end.

(** [needle in hay] on two strings: [needle] occurs in [hay] at some
    offset. *)
Fixpoint contains (needle hay : string) : bool :=
  startswith needle hay ||
  match hay with
  | EmptyString => false
  | String _ hay' => contains needle hay'
  end.

(** [s.endswith(suffix)] *)
Fixpoint endswith (suffix s : string) : bool :=
  String.eqb suffix s ||
  match s with
  | EmptyString => false
  | String _ s' => endswith suffix s'
  end.

(** The specification of [in]: [needle] is a contiguous part of [hay]. *)
Definition substring_of (needle hay : string) : Prop :=
  ∃ before after, hay = before +:+ needle +:+ after.

(** [str.isspace] on the characters below 128: tab, line feed, vertical
    tab, form feed, carriage return, the four separators 28-31, space.
    (Python also strips the whitespace outside ASCII, such as the
    no-break space; the text [create_prompt] strips begins and ends with
    the ASCII text of its template.) *)
Definition isspace (c : ascii) : bool :=
  let n := nat_of_ascii c in
  ((9 <=? n)%nat && (n <=? 13)%nat) || ((28 <=? n)%nat && (n <=? 32)%nat).

Fixpoint lstrip (s : string) : string :=
  match s with
  | EmptyString => EmptyString
  | String c s' => if isspace c then lstrip s' else s
  end.

Fixpoint rstrip (s : string) : string :=
  match s with
  | EmptyString => EmptyString
  | String c s' =>
      match rstrip s' with
      | EmptyString => if isspace c then EmptyString else String c EmptyString
      | r => String c r
      end
  end.

(** [s.strip()] *)
Definition strip (s : string) : string := rstrip (lstrip s).

(** [str.lower] restricted to ASCII: [A]-[Z] go to [a]-[z], every other
    character is kept. *)
Definition lower_char (c : ascii) : ascii :=
  let n := nat_of_ascii c in
  if (65 <=? n)%nat && (n <=? 90)%nat then ascii_of_nat (n + 32) else c.

Fixpoint ascii_lower (s : string) : string :=
  match s with
  | EmptyString => EmptyString
  | String c s' => String (lower_char c) (ascii_lower s')
  end.

(** Truthiness of an optional string: [None] and the empty string are
    false. This is the test behind [x or y]. *)
Definition truthy (o : option string) : bool :=
  match o with
  | None => false
  | Some EmptyString => false
  | Some (String _ _) => true
  end.

(** [x or y] where [x : Optional[str]] and [y : str]. *)
Definition or_else (x : option string) (y : string) : string :=
  if truthy x then default y x else y.

End PyStr.

(** ** Exceptions and results of code that can raise *)

Module Py.

(** An instance of [Exception], which is what [except Exception] catches:
    its class and the text [str(e)] gives. ([KeyboardInterrupt] and
    [SystemExit] are not instances of it and are not modelled.) *)
Record exn := { exn_class : string; exn_str : string }.

Inductive outcome (A : Type) : Type :=
| Returns (a : A)
| Raises (e : exn).
Arguments Returns {A} a.
Arguments Raises {A} e.

#[global] Instance outcome_ret : MRet outcome := @Returns.
#[global] Instance outcome_bind : MBind outcome := λ A B f m,
  match m with
  | Returns a => f a
  | Raises e => Raises e
  end.

(** [d[key]] with a string key that is missing; [str] of a [KeyError] is
    the [repr] of the key. *)
Definition KeyError (key : string) : exn :=
  {| exn_class := "KeyError"; exn_str := "'" +:+ key +:+ "'" |}.

(** Reading a local variable no executed branch has bound. *)
Definition UnboundLocalError (name : string) : exn :=
  {| exn_class := "UnboundLocalError";
     exn_str := "cannot access local variable '" +:+ name +:+
                "' where it is not associated with a value" |}.

(** [l[0]] on an empty list. *)
Definition IndexError : exn :=
  {| exn_class := "IndexError"; exn_str := "list index out of range" |}.

(** [None.strip()] *)
Definition AttributeError_None (attr : string) : exn :=
  {| exn_class := "AttributeError";
     exn_str := "'NoneType' object has no attribute '" +:+ attr +:+ "'" |}.

(** [d[key]] on a dict with string keys. *)
Definition getitem {V : Type} (d : gmap string V) (key : string) : outcome V :=
  match d !! key with
  | Some v => Returns v
  | None => Raises (KeyError key)
  end.

(** The values stored in the dictionaries the program returns. *)
Inductive value : Type :=
| PyNone
| PyBool (b : bool)
| PyStr (s : string).

End Py.

(** ** [src/prompt.py]: class [PromptGenerator] *)

Module PromptGenerator.
Import PyStr Py.

(** One entry of [self.tone_guidelines]: a dict literal with the three
    fixed keys ['description'], ['style'] and ['focus']. *)
Record ToneProfile := {
  description : string;
  style : string;
  focus : string
}.

(** [self.tone_guidelines], built once in [__init__] and only read
    afterwards. *)
Definition tone_guidelines : gmap string ToneProfile :=
  list_to_map [
    ("empathetic",
     {| description := "Compassionate and acknowledges the emotion behind the comment";
        style := "gentle, understanding, validating feelings";
        focus := "emotional support and spiritual comfort" |});
    ("biblical",
     {| description := "Rooted in spiritual truth without being overly formal";
        style := "wise, grounded in faith, thoughtful";
        focus := "spiritual guidance and biblical wisdom" |});
    ("inviting",
     {| description := "Leaves space for dialogue and reflection";
        style := "open-ended, encouraging conversation";
        focus := "fostering connection and continued dialogue" |});
    ("humble",
     {| description := "Points back to God and comes from a place of grace";
        style := "modest, grateful, God-centered";
        focus := "deflecting praise to God and expressing gratitude" |});
    ("witty",
     {| description := "Light, faith-filled humor when appropriate";
        style := "gentle humor, joy-filled, lighthearted";
        focus := "bringing joy while maintaining spiritual depth" |})
  ].

(** [self.base_instructions] *)
Definition base_instructions : string :=
  "
        Your response should be:
        - Authentic and personal, not generic or robotic
        - Spiritually grounded but not preachy
        - Compassionate and understanding
        - Humble and gracious
        - 2-3 sentences maximum
        - Written in a conversational, warm tone
        
        Avoid:
        - Sales language or promotional content
        - Being overly formal or religious jargon
        - Dismissing or minimizing feelings
        - Giving unsolicited advice unless clearly requested
        - Generic phrases like " +:+ dquote +:+ "Thank you for sharing" +:+ dquote +:+ "
        ".

(** The [if]/[elif] chain of [create_prompt] that binds [tone_specific].
    No [else] branch binds it, so with a tone outside the five the later
    read of the variable raises. *)
Definition tone_specific_of (tone : string) (tone_info : ToneProfile)
  : outcome string :=
  if String.eqb tone "empathetic" then Returns (
    "
            The user seems to be experiencing difficulty or struggle. Your reply should:
            - Acknowledge their feelings without trying to fix everything
            - Offer gentle spiritual encouragement
            - Show that you understand their situation
            - Be " +:+
    style tone_info +:+
    "
            ")
  else if String.eqb tone "biblical" then Returns (
    "
            The user appears to be seeking understanding or has questions. Your reply should:
            - Offer spiritual wisdom or insight
            - Reference spiritual principles naturally (without forcing Bible verses)
            - Be thoughtful and grounded in faith
            - Be " +:+
    style tone_info +:+
    "
            ")
  else if String.eqb tone "inviting" then Returns (
    "
            Your reply should encourage continued conversation and reflection. It should:
            - Ask a gentle follow-up question or invite further sharing
            - Be welcoming and open
            - Create space for dialogue
            - Be " +:+
    style tone_info +:+
    "
            ")
  else if String.eqb tone "humble" then Returns (
    "
            The user seems positive or grateful. Your reply should:
            - Deflect praise appropriately to God or the community
            - Express gratitude
            - Be modest about any role you might have played
            - Be " +:+
    style tone_info +:+
    "
            ")
  else if String.eqb tone "witty" then Returns (
    "
            Your reply should bring some lightness while maintaining spiritual depth. It should:
            - Include gentle, faith-filled humor if appropriate
            - Be joyful and uplifting
            - Maintain respect and sensitivity
            - Be " +:+
    style tone_info +:+
    "
            ")
  else Raises (UnboundLocalError "tone_specific").

(** The f-string bound to [full_prompt]. *)
Definition full_prompt (comment tone_specific : string)
    (tone_info : ToneProfile) : string :=
    "
        A user has left this comment: " +:+ dquote +:+
    comment +:+
    dquote +:+ "
        
        " +:+
    tone_specific +:+
    "
        
        " +:+
    base_instructions +:+
    "
        
        Generate a reply that is " +:+
    description tone_info +:+
    " and focuses on " +:+
    focus tone_info +:+
    ".
        
        Reply:
        ".

(** [create_prompt(self, comment, tone)] *)
Definition create_prompt (comment tone : string) : outcome string :=
  let tone :=
    match tone_guidelines !! tone with
    | None => "inviting"
    | Some _ => tone
    end in
  tone_info ← getitem tone_guidelines tone;
  tone_specific ← tone_specific_of tone tone_info;
  mret (strip (full_prompt comment tone_specific tone_info)).

(** [validate_tone(self, tone)] *)
Definition validate_tone (tone : string) : bool :=
  bool_decide (is_Some (tone_guidelines !! tone)).

(** [get_tone_description(self, tone)] *)
Definition get_tone_description (tone : string) : string :=
  match tone_guidelines !! tone with
  | Some tone_info => description tone_info
  | None => "Tone not found"
  end.

(** [generate_prompt(comment, tone='inviting')] *)
Definition generate_prompt (comment : string) (tone : option string)
  : outcome string :=
  create_prompt comment (default "inviting" tone).

End PromptGenerator.

(** ** [src/app.py]: class [CommentReplyAI] *)

Module CommentReplyAI.
Import PyStr Py PromptGenerator.

(** The attributes [__init__] sets from the environment (the client and
    the prompt generator apart). *)
Record Self := {
  api_key : string;
  model : string;
  max_tokens : Z;
  temperature : float;
  top_p : float
}.

(** The keyword lists of [analyze_comment_sentiment]. *)
Definition struggling_keywords : list string :=
  ["struggle"; "struggling"; "hard"; "difficult"; "doubt"; "doubting";
   "lost"; "confused"; "hurt"; "pain"; "afraid"; "scared"; "worried"].

Definition positive_keywords : list string :=
  ["thank"; "grateful"; "amazing"; "blessed"; "love"; "wonderful";
   "beautiful"; "inspiring"; "helped"; "encouraging"].

Definition questioning_keywords : list string :=
  ["why"; "how"; "what"; "when"; "where"; "understand"; "explain";
   "confused"; "unclear"; "question"].

(** [any(keyword in text for keyword in keywords)] *)
Definition any_keyword_in (keywords : list string) (text : string) : bool :=
  existsb (λ keyword, contains keyword text) keywords.

(** [tone_mapping] of [determine_tone]. *)
Definition tone_mapping : gmap string string :=
  list_to_map [
    ("struggling", "empathetic");
    ("positive", "humble");
    ("questioning", "biblical");
    ("neutral", "inviting")
  ].

(** [determine_tone(self, sentiment)]: [tone_mapping.get(sentiment,
    'inviting')]. *)
Definition determine_tone (sentiment : string) : string :=
  default "inviting" (tone_mapping !! sentiment).

(** Line 102 of [app.py], the tone given to the composer and reported in
    the result: [custom_tone or self.determine_tone(sentiment)]. *)
Definition resolve_tone (sentiment : string) (custom_tone : option string)
  : string :=
  or_else custom_tone (determine_tone sentiment).

(** The request [generate_reply] sends: the keyword arguments of
    [self.client.chat.completions.create]. *)
Record ChatMessage := { role : string; content : string }.

Record ChatRequest := {
  req_model : string;
  req_messages : list ChatMessage;
  req_max_tokens : Z;
  req_temperature : float;
  req_top_p : float
}.

(** What the call returns, as far as [generate_reply] reads it:
    [response.choices[0].message.content]. *)
Record ChatCompletionMessage := { message_content : option string }.
Record Choice := { message : ChatCompletionMessage }.
Record ChatCompletion := { choices : list Choice }.

Definition system_content : string :=
  "You are a compassionate spiritual guide who responds to comments with empathy, wisdom, and grace. Your responses should be authentic, humble, and grounded in spiritual truth.".

(** The arguments of the call in [generate_reply]: the model, the system
    and user messages, and the three generation parameters of [self]. *)
Definition chat_request (self : Self) (model prompt : string) : ChatRequest :=
  {| req_model := model;
     req_messages :=
       [ {| role := "system"; content := system_content |};
         {| role := "user"; content := prompt |} ];
     req_max_tokens := max_tokens self;
     req_temperature := temperature self;
     req_top_p := top_p self |}.

(** [response.choices[0].message.content.strip()] *)
Definition reply_text (response : ChatCompletion) : outcome string :=
  match choices response with
  | [] => Raises IndexError
  | choice :: _ =>
      match message_content (message choice) with
      | None => Raises (AttributeError_None "strip")
      | Some text => Returns (strip text)
      end
  end.

(** The dict literal both [return] statements of [generate_reply] build. *)
Definition reply_dict (reply tone_used sentiment_detected success error : value)
  : gmap string value :=
  list_to_map [
    ("reply", reply);
    ("tone_used", tone_used);
    ("sentiment_detected", sentiment_detected);
    ("success", success);
    ("error", error)
  ].

(** [x if 'x' in locals() else None] *)
Definition local_or_None (x : option string) : value :=
  from_option PyStr PyNone x.

Section Runtime.

(** The runtime's [str.lower]. *)
Context (str_lower : string → string).

(** [analyze_comment_sentiment(self, comment)] *)
Definition analyze_comment_sentiment (comment : string) : string :=
  let comment_lower := str_lower comment in
  if any_keyword_in struggling_keywords comment_lower then "struggling"
  else if any_keyword_in positive_keywords comment_lower then "positive"
  else if any_keyword_in questioning_keywords comment_lower then "questioning"
  else "neutral".

(** The generation provider: one call takes a request and either returns a
    completion or raises; [World] is whatever state the provider and the
    network have, so successive calls may answer differently. *)
Context {World : Type}.
Context (chat_completions_create :
           ChatRequest → World → outcome ChatCompletion * World).
Context (self : Self).

(** The state of one run of the [try] block of [generate_reply]: the two
    local variables the handler looks up in [locals()] (absent until
    assigned) and the provider's state. *)
Record Frame := {
  local_sentiment : option string;
  local_tone : option string;
  provider : World
}.

Definition Try (A : Type) : Type := Frame → outcome A * Frame.

#[local] Instance Try_ret : MRet Try := λ A a fr, (Returns a, fr).
#[local] Instance Try_bind : MBind Try := λ A B f m fr,
  match m fr with
  | (Returns a, fr') => f a fr'
  | (Raises e, fr') => (Raises e, fr')
  end.

(** [sentiment = v] *)
Definition assign_sentiment (v : string) : Try string := λ fr,
  (Returns v,
   {| local_sentiment := Some v;
      local_tone := local_tone fr;
      provider := provider fr |}).

(** [tone = v] *)
Definition assign_tone (v : string) : Try string := λ fr,
  (Returns v,
   {| local_sentiment := local_sentiment fr;
      local_tone := Some v;
      provider := provider fr |}).

(** A step that touches neither the locals nor the provider. *)
Definition pure_step {A : Type} (o : outcome A) : Try A := λ fr, (o, fr).

(** [self.client.chat.completions.create(...)] *)
Definition call_provider (request : ChatRequest) : Try ChatCompletion := λ fr,
  let '(o, w) := chat_completions_create request (provider fr) in
  (o,
   {| local_sentiment := local_sentiment fr;
      local_tone := local_tone fr;
      provider := w |}).

(** The body of the [try] block of [generate_reply]. *)
Definition generate_reply_try (comment : string)
    (custom_tone model_arg : option string) : Try (gmap string value) :=
  let model := or_else model_arg (model self) in
  sentiment ← assign_sentiment (analyze_comment_sentiment comment);
  tone ← assign_tone (resolve_tone sentiment custom_tone);
  prompt ← pure_step (create_prompt comment tone);
  response ← call_provider (chat_request self model prompt);
  ai_reply ← pure_step (reply_text response);
  mret (reply_dict (PyStr ai_reply) (PyStr tone) (PyStr sentiment)
          (PyBool true) PyNone).

(** [generate_reply(self, comment, custom_tone=None, model=None)]: the
    [try] block, and the [except Exception as e] handler that builds the
    failure dict from [str(e)] and the locals bound so far. *)
Definition generate_reply (comment : string)
    (custom_tone model_arg : option string) (w : World)
  : gmap string value * World :=
  let '(o, fr) :=
    generate_reply_try comment custom_tone model_arg
      {| local_sentiment := None; local_tone := None; provider := w |} in
  match o with
  | Returns result => (result, provider fr)
  | Raises e =>
      (reply_dict PyNone
         (local_or_None (local_tone fr))
         (local_or_None (local_sentiment fr))
         (PyBool false) (PyStr (exn_str e)),
       provider fr)
  end.

(** The [for i, comment in enumerate(comments)] loop of
    [batch_generate_replies], from index [i] on, with the list [results]
    built so far. *)
Fixpoint batch_loop (i : nat) (comments : list string)
    (custom_tones : gmap Z string) (results : list (gmap string value))
    (w : World) : list (gmap string value) * World :=
  match comments with
  | [] => (results, w)
  | comment :: rest =>
      let custom_tone := custom_tones !! Z.of_nat i in
      let '(result, w') := generate_reply comment custom_tone None w in
      batch_loop (S i) rest custom_tones (results ++ [result]) w'
  end.

(** [batch_generate_replies(self, comments, custom_tones=None)] *)
Definition batch_generate_replies (comments : list string)
    (custom_tones : option (gmap Z string)) (w : World)
  : list (gmap string value) * World :=
  let custom_tones := default ∅ custom_tones in
  batch_loop 0 comments custom_tones [] w.

End Runtime.

End CommentReplyAI.

(** ** The vocabulary of the specification *)

Module Spec.
Import PyStr Py PromptGenerator CommentReplyAI.

(** The four sentiments. *)
Definition sentiments : list string :=
  ["struggling"; "positive"; "questioning"; "neutral"].

(** The five known tones. *)
Definition known_tones : list string :=
  ["empathetic"; "biblical"; "inviting"; "humble"; "witty"].

(** Some keyword of the list occurs in the text. *)
Definition mentions (keywords : list string) (text : string) : Prop :=
  ∃ keyword, keyword ∈ keywords ∧ substring_of keyword text.

(** No whitespace at either end. *)
Definition trimmed (s : string) : Prop :=
  (∀ c rest, s = String c rest → isspace c = false) ∧
  (∀ front c, s = front +:+ String c EmptyString → isspace c = false).

(** The keys of a reply dictionary. *)
Definition reply_keys : gset string :=
  {[ "reply"; "tone_used"; "sentiment_detected"; "success"; "error" ]}.

(** The reply dictionary for a sentiment, a tone and what came of the
    generation: the trimmed text, or the exception that was raised. *)
Definition reply_of (sentiment tone : string) (answer : outcome string)
  : gmap string value :=
  match answer with
  | Returns text =>
      reply_dict (PyStr text) (PyStr tone) (PyStr sentiment) (PyBool true) PyNone
  | Raises e =>
      reply_dict PyNone (PyStr tone) (PyStr sentiment) (PyBool false)
        (PyStr (exn_str e))
  end.

(** The five fields of a reply dictionary, in the order of its keys. *)
Definition fields (d : gmap string value) : list (option value) :=
  (λ key, d !! key) <$>
    ["reply"; "tone_used"; "sentiment_detected"; "success"; "error"].

(** The shape of a reply dictionary: exactly the five keys; [success] is a
    boolean that is true exactly when [error] is [None], which is exactly
    when [reply] is a string; on failure [reply] is [None] and [error] is
    a string. *)
Definition reply_shape (d : gmap string value) : Prop :=
  dom d = reply_keys ∧
  (∃ b, d !! "success" = Some (PyBool b)) ∧
  (d !! "success" = Some (PyBool true) ↔ d !! "error" = Some PyNone) ∧
  (d !! "error" = Some PyNone ↔ ∃ text, d !! "reply" = Some (PyStr text)) ∧
  (d !! "success" = Some (PyBool false) →
     d !! "reply" = Some PyNone ∧ ∃ msg, d !! "error" = Some (PyStr msg)).

(** [custom_tones.get(i)] after [custom_tones = custom_tones or {}]: the
    override of index [i], absent when there is no mapping or the index is
    not mapped. *)
Definition override_at (custom_tones : option (gmap Z string)) (i : nat)
  : option string :=
  custom_tones ≫= (λ tones, tones !! Z.of_nat i).

Section Runtime.
Context (str_lower : string → string).
Context {World : Type}.
Context (chat_completions_create :
           ChatRequest → World → outcome ChatCompletion * World).
Context (self : Self).

(** The provider's state when a batch that started in [w] reaches the
    comment at position [k]: the state each earlier call of
    [generate_reply] left, in order ([i] is the index of the head of
    [comments]). *)
Fixpoint state_before (i : nat) (comments : list string)
    (custom_tones : option (gmap Z string)) (k : nat) (w : World) : World :=
  match k, comments with
  | S k', comment :: rest =>
      state_before (S i) rest custom_tones k'
        (generate_reply str_lower chat_completions_create self comment
           (override_at custom_tones i) None w).2
  | _, _ => w
  end.

End Runtime.

End Spec.

(** ** Providers and settings to run the model on *)

Module Fixtures.
Import PyStr Py PromptGenerator CommentReplyAI.

(** The settings [__init__] reads when the environment sets only the key
    ([float('0.7')] and [float('0.9')] are the nearest binary64 values). *)
#[warnings="-inexact-float"]
Definition settings : Self :=
  {| api_key := "sk-test";
     model := "gpt-4";
     max_tokens := 300;
     temperature := 0.7%float;
     top_p := 0.9%float |}.

Definition completion (text : option string) : ChatCompletion :=
  {| choices := [ {| message := {| message_content := text |} |} ] |}.

Definition APIConnectionError : exn :=
  {| exn_class := "APIConnectionError"; exn_str := "Connection error." |}.

(** A provider that counts its calls and answers every one of them. *)
Definition answering (request : ChatRequest) (calls : nat)
  : outcome ChatCompletion * nat :=
  (Returns (completion (Some "  Grace and peace to you.  ")), S calls).

(** A provider that counts its calls and fails every one of them. *)
Definition unreachable (request : ChatRequest) (calls : nat)
  : outcome ChatCompletion * nat :=
  (Raises APIConnectionError, S calls).

(** A provider whose completion holds no choice. *)
Definition answering_nothing (request : ChatRequest) (calls : nat)
  : outcome ChatCompletion * nat :=
  (Returns {| choices := [] |}, S calls).

(** A provider that fails its second call only. *)
Definition failing_second (request : ChatRequest) (calls : nat)
  : outcome ChatCompletion * nat :=
  if Nat.eqb calls 1 then unreachable request calls
  else answering request calls.

End Fixtures.

(** ** [src/prompt.py]: the lookup methods of [PromptGenerator] *)

Module ToneCatalogue.
Import PyStr Py PromptGenerator.

(** [get_available_tones(self)]: [list(self.tone_guidelines.keys())], the
    keys in the order the dict literal of [__init__] inserts them. *)
Definition get_available_tones : list string :=
  ["empathetic"; "biblical"; "inviting"; "humble"; "witty"].

(** The dict [examples] of [get_tone_examples]. *)
Definition examples : gmap string (gmap string string) :=
  list_to_map [
    ("empathetic",
     list_to_map [
       ("comment", "I'm struggling to believe this applies to me.");
       ("reply", "I hear the struggle in your words, and that's so understandable. Sometimes the most profound truths feel the hardest to accept for ourselves. You're not alone in feeling this way. ❤️")
     ]);
    ("biblical",
     list_to_map [
       ("comment", "I don't understand why this keeps happening to me.");
       ("reply", "Those 'why' questions can feel so heavy, can't they? Sometimes our greatest growth comes through seasons we never would have chosen. His plans often unfold in ways we can't see in the moment.")
     ]);
    ("inviting",
     list_to_map [
       ("comment", "This really made me think.");
       ("reply", "I love when something sparks that kind of reflection! What part resonated most with you? I'd be curious to hear what thoughts it stirred up.")
     ]);
    ("humble",
     list_to_map [
       ("comment", "Thank you so much for sharing this wisdom!");
       ("reply", "You're so kind! Any wisdom here isn't mine - I'm just grateful when something resonates and encourages someone's heart. That's all God's grace at work. 🙏")
     ]);
    ("witty",
     list_to_map [
       ("comment", "I needed to hear this today!");
       ("reply", "Isn't it amazing how the right words show up exactly when we need them? Someone upstairs has pretty good timing! 😊 Hope it brings some light to your day.")
     ])
  ].

(** [get_tone_examples(self, tone)]: [examples.get(tone, {})]. *)
Definition get_tone_examples (tone : string) : gmap string string :=
  default ∅ (examples !! tone).

End ToneCatalogue.

(** ** [src/app.py]: [__init__] and [generate_comment_reply] *)

Module Startup.
Import PyStr Py PromptGenerator CommentReplyAI.

Definition ValueError (msg : string) : exn :=
  {| exn_class := "ValueError"; exn_str := msg |}.

(** [os.getenv(name)] on the process environment (after [load_dotenv()]
    has added the entries of the [.env] file). *)
Definition getenv (env : gmap string string) (name : string) : option string :=
  env !! name.

(** [os.getenv(name, fallback)] *)
Definition getenv_or (env : gmap string string) (name fallback : string)
  : string :=
  default fallback (env !! name).

(** [x or y] where both are [Optional[str]]. *)
Definition or_option (x y : option string) : option string :=
  if truthy x then x else y.

Section Runtime.

(** The runtime's [int(s)] and [float(s)] on a string, each of which
    raises [ValueError] on text it cannot read. *)
Context (int_of_str : string → outcome Z).
Context (float_of_str : string → outcome float).

(** [OpenAI(api_key=key)]: building the client may raise; the client is
    used through its [chat.completions.create]. *)
Context {World : Type}.
Context (OpenAI :
           string →
           outcome (ChatRequest → World → outcome ChatCompletion * World)).

(** [CommentReplyAI.__init__(self, api_key=None)]: the attributes and the
    client of the new object, or the exception raised. *)
Definition init (api_key : option string) (env : gmap string string)
  : outcome (Self * (ChatRequest → World → outcome ChatCompletion * World)) :=
  let api_key := or_option api_key (getenv env "OPENAI_API_KEY") in
  if negb (truthy api_key) then
    Raises (ValueError
      "OpenAI API key is required. Set OPENAI_API_KEY in .env file or pass api_key parameter.")
  else
    let model := getenv_or env "OPENAI_MODEL" "gpt-4" in
    max_tokens ← int_of_str (getenv_or env "MAX_TOKENS" "300");
    temperature ← float_of_str (getenv_or env "TEMPERATURE" "0.7");
    top_p ← float_of_str (getenv_or env "TOP_P" "0.9");
    client ← OpenAI (default EmptyString api_key);
    mret ({| api_key := default EmptyString api_key;
             model := model;
             max_tokens := max_tokens;
             temperature := temperature;
             top_p := top_p |},
          client).

Context (str_lower : string → string).

(** [generate_comment_reply(comment, api_key=None, tone=None)]: the
    constructor runs outside any [try], so what it raises is raised to the
    caller. *)
Definition generate_comment_reply (comment : string)
    (api_key tone : option string) (env : gmap string string) (w : World)
  : outcome (gmap string value) * World :=
  match init api_key env with
  | Raises e => (Raises e, w)
  | Returns (self, client) =>
      let '(result, w') :=
        generate_reply str_lower client self comment tone None w in
      (Returns result, w')
  end.

End Runtime.

End Startup.

(** ** [src/test.py]: the functions of the tester that do not draw *)

Module Tester.
Import PyStr Py PromptGenerator CommentReplyAI ToneCatalogue Startup.

#[global] Instance value_eq_dec : EqDecision value.
Proof. solve_decision. Defined.

#[global] Instance value_countable : Countable value :=
  inj_countable'
    (λ v, match v with
          | PyNone => inl ()
          | PyBool b => inr (inl b)
          | PyStr s => inr (inr s)
          end)
    (λ x, match x with
          | inl _ => PyNone
          | inr (inl b) => PyBool b
          | inr (inr s) => PyStr s
          end)
    (λ v, match v with PyNone | PyBool _ | PyStr _ => eq_refl end).

(** [st.session_state.stats]: the two counters and the two dicts of
    counts. The keys of the dicts are whatever [result.get] gives, so they
    are values, not only strings. *)
Record Stats := {
  total_messages : Z;
  successful_replies : Z;
  tone_usage : gmap value Z;
  sentiment_distribution : gmap value Z
}.

(** The dict the session starts with, and [Clear Conversation] restores. *)
Definition initial_stats : Stats :=
  {| total_messages := 0;
     successful_replies := 0;
     tone_usage := ∅;
     sentiment_distribution := ∅ |}.

(** Truthiness of [d.get(key)]: a missing key gives [None]. *)
Definition value_truthy (v : option value) : bool :=
  match v with
  | Some (PyBool b) => b
  | Some (PyStr s) => negb (String.eqb s EmptyString)
  | Some PyNone | None => false
  end.

(** [counts[key] = counts.get(key, 0) + 1] *)
Definition count_one (key : value) (counts : gmap value Z) : gmap value Z :=
  <[key := default 0 (counts !! key) + 1]> counts.

(** [update_stats(result)], as a function of the statistics it updates in
    place. *)
Definition update_stats (result : gmap string value) (stats : Stats) : Stats :=
  let total := total_messages stats + 1 in
  if value_truthy (result !! "success") then
    let tone := default (PyStr "unknown") (result !! "tone_used") in
    let sentiment :=
      default (PyStr "unknown") (result !! "sentiment_detected") in
    {| total_messages := total;
       successful_replies := successful_replies stats + 1;
       tone_usage := count_one tone (tone_usage stats);
       sentiment_distribution :=
         count_one sentiment (sentiment_distribution stats) |}
  else
    {| total_messages := total;
       successful_replies := successful_replies stats;
       tone_usage := tone_usage stats;
       sentiment_distribution := sentiment_distribution stats |}.

(** The sum of the counts of a dict. *)
Definition count_sum (counts : gmap value Z) : Z :=
  map_fold (λ _ n total, n + total) 0 counts.

(** [str.upper] on one ASCII character. *)
Definition upper_char (c : ascii) : ascii :=
  let n := nat_of_ascii c in
  if (97 <=? n)%nat && (n <=? 122)%nat then ascii_of_nat (n - 32) else c.

(** The ASCII letters: the characters [str.title] counts as cased. *)
Definition is_cased (c : ascii) : bool :=
  let n := nat_of_ascii c in
  ((65 <=? n)%nat && (n <=? 90)%nat) || ((97 <=? n)%nat && (n <=? 122)%nat).

(** [str.title] on ASCII text: a letter that follows a letter is
    lower-cased, any other letter is upper-cased. *)
Fixpoint title_from (previous_is_cased : bool) (s : string) : string :=
  match s with
  | EmptyString => EmptyString
  | String c s' =>
      String (if previous_is_cased then lower_char c else upper_char c)
        (title_from (is_cased c) s')
  end.

Definition ascii_title (s : string) : string := title_from false s.

(** The options of the tone select box (line 311):
    [["Auto"] + [tone.title() for tone in available_tones]]. *)
Definition tone_options : list string :=
  "Auto" :: (ascii_title <$> get_available_tones).

(** Line 337: [None if tone_override == "Auto" else tone_override.lower()]. *)
Definition custom_tone_of (tone_override : string) : option string :=
  if String.eqb tone_override "Auto" then None
  else Some (ascii_lower tone_override).

Section Runtime.
Context (int_of_str : string → outcome Z).
Context (float_of_str : string → outcome float).
Context {World : Type}.
Context (OpenAI :
           string →
           outcome (ChatRequest → World → outcome ChatCompletion * World)).

(** [initialize_ai_system()]: the pair of the system (or [None]) and the
    message. The [try] block is the key test and the construction; the
    handler turns any exception into a message. *)
Definition initialize_ai_system (env : gmap string string)
  : option (Self * (ChatRequest → World → outcome ChatCompletion * World))
    * string :=
  let api_key := getenv env "OPENAI_API_KEY" in
  if negb (truthy api_key) then
    (None,
     "❌ OpenAI API key not found. Please set OPENAI_API_KEY in your .env file.")
  else
    match init int_of_str float_of_str OpenAI None env with
    | Returns ai_system =>
        (Some ai_system, "✅ AI system initialized successfully!")
    | Raises e =>
        (None, "❌ Error initializing AI system: " +:+ exn_str e)
    end.

End Runtime.

End Tester.

(** ** More vocabulary for the properties *)

Module Vocabulary.
Import PyStr Py PromptGenerator CommentReplyAI ToneCatalogue Startup Tester.

(** The words every prompt starts with. *)
Definition prompt_head : string := "A user has left this comment: ".

(** [s[n:]] *)
Fixpoint skip (n : nat) (s : string) : string :=
  match n, s with
  | S n', String _ s' => skip n' s'
  | _, _ => s
  end.

(** What follows the closing quote in the prompt [create_prompt] returns
    for the empty comment. *)
Definition prompt_tail (tone : string) : string :=
  match create_prompt EmptyString tone with
  | Returns prompt => skip (String.length prompt_head + 2) prompt
  | Raises _ => EmptyString
  end.

(** The tone [create_prompt] composes for: the tone given when it is a key
    of [tone_guidelines], [inviting] otherwise. *)
Definition effective_tone (tone : string) : string :=
  if validate_tone tone then tone else "inviting".

(** The message of the [ValueError] of [__init__]. *)
Definition key_required : string :=
  "OpenAI API key is required. Set OPENAI_API_KEY in .env file or pass api_key parameter.".

(** The statistics after [update_stats] has been called, from the initial
    statistics, on each result of a list in turn. *)
Definition stats_after (results : list (gmap string value)) : Stats :=
  foldl (λ stats result, update_stats result stats) initial_stats results.

(** The results of a list whose [success] is truthy. *)
Definition successes (results : list (gmap string value))
  : list (gmap string value) :=
  filter (λ result, value_truthy (result !! "success") = true) results.

End Vocabulary.

(** ** Readers and a client to run [__init__] on *)

Module StartupFixtures.
Import PyStr Py PromptGenerator CommentReplyAI Startup.

(** A reader of decimal integers without sign, for running [__init__]. *)
Fixpoint read_digits (total : Z) (s : string) : option Z :=
  match s with
  | EmptyString => Some total
  | String c s' =>
      let n := nat_of_ascii c in
      if (48 <=? n)%nat && (n <=? 57)%nat
      then read_digits (10 * total + Z.of_nat (n - 48)) s'
      else None
  end.

Definition int_of_digits (s : string) : outcome Z :=
  match s with
  | EmptyString => Raises (ValueError "invalid literal for int()")
  | _ => match read_digits 0 s with
         | Some n => Returns n
         | None => Raises (ValueError "invalid literal for int()")
         end
  end.

(** A reader of the two default settings, for running [__init__]. *)
#[warnings="-inexact-float"]
Definition float_of_default (s : string) : outcome float :=
  if String.eqb s "0.7" then Returns 0.7%float
  else if String.eqb s "0.9" then Returns 0.9%float
  else Raises (ValueError "could not convert string to float").

(** A client constructor whose clients answer every call. *)
Definition client_of (key : string)
  : outcome (ChatRequest → nat → outcome ChatCompletion * nat) :=
  Returns Fixtures.answering.

End StartupFixtures.

(** * Properties *)

(** ** Strings *)

Module PyStrFacts.
Import PyStr.

Lemma append_cons (c : ascii) (s t : string) :
  String c s +:+ t = String c (s +:+ t).
Proof. reflexivity. Qed.

Lemma append_nil_r (s : string) : s +:+ EmptyString = s.
Proof. induction s as [|c s IH]; [done|]. by rewrite append_cons, IH. Qed.

Lemma append_assoc (s t u : string) : (s +:+ t) +:+ u = s +:+ t +:+ u.
Proof. induction s as [|c s IH]; [done|]. by rewrite !append_cons, IH. Qed.

Lemma startswith_spec (pre s : string) :
  startswith pre s = true ↔ ∃ rest, s = pre +:+ rest.
Proof.
  revert s. induction pre as [|a pre IH]; intros s; simpl.
  - split; [intros _; by exists s | done].
  - destruct s as [|b s]; simpl.
    + split; [done | intros [rest Hrest]; discriminate Hrest].
    + rewrite andb_true_iff, Ascii.eqb_eq, IH. split.
      * intros [-> [rest ->]]. by exists rest.
      * intros [rest Hrest]. rewrite append_cons in Hrest.
        injection Hrest as -> ->. eauto.
Qed.

(** The executable [in] decides occurrence as a contiguous part. *)
Lemma contains_spec (needle hay : string) :
  contains needle hay = true ↔ substring_of needle hay.
Proof.
  unfold substring_of. induction hay as [|b hay IH]; simpl.
  - rewrite orb_false_r, startswith_spec. split.
    + intros [rest Hrest]. by exists EmptyString, rest.
    + intros [[|c before] [after Heq]]; [by exists after | discriminate Heq].
  - rewrite orb_true_iff, startswith_spec, IH. split.
    + intros [[rest Hrest] | (before & after & ->)].
      * by exists EmptyString, rest.
      * by exists (String b before), after.
    + intros [[|c before] [after Heq]].
      * left. by exists after.
      * right. rewrite append_cons in Heq. injection Heq as -> ->. eauto.
Qed.

Lemma substring_of_app (needle before after : string) :
  substring_of needle (before +:+ needle +:+ after).
Proof. by exists before, after. Qed.

Lemma endswith_spec (suffix s : string) :
  endswith suffix s = true → ∃ front, s = front +:+ suffix.
Proof.
  induction s as [|c s IH]; simpl.
  - rewrite orb_false_r. intros ->%String.eqb_eq. by exists EmptyString.
  - intros [->%String.eqb_eq | [front ->]%IH]%orb_true_iff.
    + by exists EmptyString.
    + by exists (String c front).
Qed.

Lemma endswith_app (suffix a b : string) :
  endswith suffix b = true → endswith suffix (a +:+ b) = true.
Proof.
  intros Hb. induction a as [|c a IH]; [done|].
  rewrite append_cons. simpl. rewrite IH. apply orb_true_r.
Qed.

Lemma append_eq_nil (s t : string) : s +:+ t = EmptyString → t = EmptyString.
Proof. destruct s as [|c s]; [done | discriminate]. Qed.

(** Stripping on the left stops inside the first operand when that one
    holds a character that is not whitespace. *)
Lemma lstrip_app (a b : string) :
  lstrip a ≠ EmptyString → lstrip (a +:+ b) = lstrip a +:+ b.
Proof.
  induction a as [|c a IH]; intros Hne; [done|].
  rewrite append_cons. simpl in *. destruct (isspace c); [by apply IH | done].
Qed.

(** Stripping on the right only touches the last operand when that one
    holds a character that is not whitespace. *)
Lemma rstrip_app (a b : string) :
  rstrip b ≠ EmptyString → rstrip (a +:+ b) = a +:+ rstrip b.
Proof.
  intros Hne. induction a as [|c a IH]; [done|].
  rewrite !append_cons. simpl. rewrite IH.
  destruct (a +:+ rstrip b) eqn:Heq; [|done].
  by apply append_eq_nil in Heq.
Qed.

Lemma lstrip_head (s : string) (c : ascii) (rest : string) :
  lstrip s = String c rest → isspace c = false.
Proof.
  induction s as [|a s IH]; simpl; [done|].
  destruct (isspace a) eqn:Ha; [done|]. by intros [= <- _].
Qed.

Lemma rstrip_head (c : ascii) (s : string) :
  isspace c = false → ∃ rest, rstrip (String c s) = String c rest.
Proof.
  intros Hc. simpl. destruct (rstrip s); rewrite ?Hc; eauto.
Qed.

Lemma rstrip_last (s front : string) (c : ascii) :
  rstrip s = front +:+ String c EmptyString → isspace c = false.
Proof.
  revert front. induction s as [|a s IH]; intros front; simpl.
  - destruct front; discriminate.
  - destruct (rstrip s) as [|r0 r] eqn:Hr.
    + destruct (isspace a) eqn:Ha; [destruct front; discriminate|].
      destruct front as [|f0 [|f1 front]]; [|discriminate..].
      by intros [= <-].
    + destruct front as [|f0 front]; [discriminate|].
      rewrite append_cons. intros [= _ Heq]. by apply (IH front).
Qed.

Lemma rstrip_app_ne (a b : string) :
  rstrip b ≠ EmptyString → rstrip (a +:+ b) ≠ EmptyString.
Proof.
  intros Hne. rewrite rstrip_app by done.
  intros Heq. by apply append_eq_nil in Heq.
Qed.

(** Whatever it is applied to, [strip] leaves no whitespace at either
    end. *)
Lemma strip_trimmed (s : string) : Spec.trimmed (strip s).
Proof.
  unfold strip. split.
  - intros c rest Heq. destruct (lstrip s) as [|c0 t] eqn:Hl; [discriminate|].
    pose proof (lstrip_head _ _ _ Hl) as Hc0.
    destruct (rstrip_head c0 t Hc0) as [rest' Hrest'].
    rewrite Hrest' in Heq. by injection Heq as <- _.
  - intros front c. apply rstrip_last.
Qed.

(** [strip] of a text whose first and last pieces hold a character that is
    not whitespace: the pieces in between are kept as they are. *)
Lemma strip_sandwich (a middle b : string) :
  lstrip a ≠ EmptyString → rstrip b ≠ EmptyString →
  strip (a +:+ middle +:+ b) = lstrip a +:+ middle +:+ rstrip b.
Proof.
  intros Ha Hb. unfold strip. rewrite lstrip_app by done.
  rewrite <- append_assoc, rstrip_app by done. by rewrite append_assoc.
Qed.

End PyStrFacts.

(** ** The sentiment classifier *)

Module ClassifierFacts.
Import PyStr Py PromptGenerator CommentReplyAI Spec PyStrFacts.

Lemma any_keyword_in_spec (keywords : list string) (text : string) :
  any_keyword_in keywords text = true ↔ mentions keywords text.
Proof.
  unfold any_keyword_in, mentions. rewrite existsb_exists.
  split; intros (k & Hk & Hin); exists k.
  - by rewrite list_elem_of_In, <- contains_spec.
  - by rewrite <- list_elem_of_In, contains_spec.
Qed.

Lemma any_keyword_in_false (keywords : list string) (text : string) :
  any_keyword_in keywords text = false ↔ ¬ mentions keywords text.
Proof.
  rewrite <- any_keyword_in_spec.
  destruct (any_keyword_in keywords text); naive_solver.
Qed.

(** Closes a goal made of equations between string literals and of
    propositions already decided by the hypotheses. *)
Ltac settle_cases :=
  repeat split; intros; try discriminate; try tauto; try congruence.

Section Runtime.
Context (str_lower : string → string).

(** C1. [analyze_comment_sentiment] lower-cases the comment and decides by
    substring containment in strict priority order: struggling when a
    struggling keyword occurs; otherwise positive when a positive keyword
    occurs; otherwise questioning when a questioning keyword occurs;
    otherwise neutral. So the result is always one of the four sentiments,
    and a struggling keyword wins whatever else the comment contains. *)
Theorem analyze_comment_sentiment_priority (comment : string) :
  let text := str_lower comment in
  let sentiment := analyze_comment_sentiment str_lower comment in
  sentiment ∈ sentiments ∧
  (mentions struggling_keywords text → sentiment = "struggling") ∧
  (sentiment = "struggling" ↔ mentions struggling_keywords text) ∧
  (sentiment = "positive" ↔
     ¬ mentions struggling_keywords text ∧ mentions positive_keywords text) ∧
  (sentiment = "questioning" ↔
     ¬ mentions struggling_keywords text ∧ ¬ mentions positive_keywords text ∧
     mentions questioning_keywords text) ∧
  (sentiment = "neutral" ↔
     ¬ mentions struggling_keywords text ∧ ¬ mentions positive_keywords text ∧
     ¬ mentions questioning_keywords text).
Proof.
  intros text sentiment. subst sentiment. unfold analyze_comment_sentiment.
  fold text. unfold sentiments. rewrite !elem_of_cons.
  destruct (any_keyword_in struggling_keywords text) eqn:Hs;
    [apply any_keyword_in_spec in Hs | apply any_keyword_in_false in Hs].
  { settle_cases. }
  destruct (any_keyword_in positive_keywords text) eqn:Hp;
    [apply any_keyword_in_spec in Hp | apply any_keyword_in_false in Hp].
  { settle_cases. }
  destruct (any_keyword_in questioning_keywords text) eqn:Hq;
    [apply any_keyword_in_spec in Hq | apply any_keyword_in_false in Hq].
  { settle_cases. }
  settle_cases.
Qed.

End Runtime.

(** The three automatic end-to-end scenarios of the specification, run
    with the ASCII instance of [str.lower]. *)
Example classify_scenario_1 :
  analyze_comment_sentiment ascii_lower
    "I'm struggling to believe this applies to me." = "struggling".
Proof. reflexivity. Qed.

Example classify_scenario_2 :
  analyze_comment_sentiment ascii_lower "Thank you so much for this!"
  = "positive".
Proof. reflexivity. Qed.

Example classify_scenario_3 :
  analyze_comment_sentiment ascii_lower "Why does this keep happening to me?"
  = "questioning".
Proof. reflexivity. Qed.

Example classify_scenario_4 :
  analyze_comment_sentiment ascii_lower "Nice post." = "neutral".
Proof. reflexivity. Qed.

(** A struggling keyword together with a positive and a questioning one. *)
Example classify_mixed :
  analyze_comment_sentiment ascii_lower
    "Thank you, but why is it so HARD?" = "struggling".
Proof. reflexivity. Qed.

End ClassifierFacts.

(** ** The prompt composer *)

Module PromptGeneratorFacts.
Import PyStr Py PromptGenerator CommentReplyAI Spec PyStrFacts.

(** The keys of [tone_guidelines] are the five known tones. *)
Lemma tone_guidelines_None (tone : string) :
  tone_guidelines !! tone = None ↔ tone ∉ known_tones.
Proof. unfold tone_guidelines. by rewrite <- not_elem_of_list_to_map. Qed.

(** X1. [validate_tone] accepts exactly the five known tones. *)
Theorem validate_tone_spec (tone : string) :
  validate_tone tone = true ↔ tone ∈ known_tones.
Proof.
  unfold validate_tone. rewrite bool_decide_eq_true.
  rewrite <- not_eq_None_Some, tone_guidelines_None.
  destruct (decide (tone ∈ known_tones)); naive_solver.
Qed.

(** With a known tone neither the lookup nor the [if]/[elif] chain can
    fail. *)
Lemma known_tone_bound (tone : string) :
  tone ∈ known_tones →
  ∃ tone_info tone_specific,
    tone_guidelines !! tone = Some tone_info ∧
    tone_specific_of tone tone_info = Returns tone_specific.
Proof.
  unfold known_tones. rewrite !elem_of_cons, elem_of_nil.
  intros [-> | [-> | [-> | [-> | [-> | []]]]]];
    eexists _, _; split; vm_compute; reflexivity.
Qed.

Lemma create_prompt_known (comment tone : string) :
  tone ∈ known_tones →
  ∃ tone_info tone_specific,
    create_prompt comment tone =
      Returns (strip (full_prompt comment tone_specific tone_info)).
Proof.
  intros Hin. destruct (known_tone_bound tone Hin) as (info & ts & Hinfo & Hts).
  exists info, ts. unfold create_prompt, getitem. rewrite !Hinfo.
  cbn [mbind outcome_bind mret outcome_ret]. by rewrite Hts.
Qed.

(** The fallback of [create_prompt]: a tone that is no key of
    [tone_guidelines] is replaced by ['inviting'] before anything else
    reads it. *)
Lemma create_prompt_fallback (comment tone : string) :
  tone_guidelines !! tone = None →
  create_prompt comment tone = create_prompt comment "inviting".
Proof.
  intros Hnone. unfold create_prompt. rewrite Hnone.
  by destruct (tone_guidelines !! "inviting").
Qed.

(** What [strip] leaves of the f-string starts with the quoted comment
    and ends with [Reply:]. *)
Lemma strip_full_prompt (comment tone_specific : string)
    (tone_info : ToneProfile) :
  (∃ rest,
     strip (full_prompt comment tone_specific tone_info) =
       "A user has left this comment: " +:+ dquote +:+ comment +:+ dquote
       +:+ rest) ∧
  (∃ front,
     strip (full_prompt comment tone_specific tone_info) = front +:+ "Reply:").
Proof.
  unfold full_prompt, strip.
  rewrite lstrip_app by (vm_compute; discriminate).
  rewrite !rstrip_app
    by (repeat apply rstrip_app_ne; vm_compute; discriminate).
  split.
  - eexists. reflexivity.
  - apply endswith_spec. repeat apply endswith_app. by vm_compute.
Qed.

(** [create_prompt] returns for every tone, and what it returns is
    trimmed, starts with the quoted comment and ends with [Reply:]. *)
Lemma create_prompt_returns (comment tone : string) :
  ∃ prompt,
    create_prompt comment tone = Returns prompt ∧
    trimmed prompt ∧
    (∃ rest, prompt = "A user has left this comment: " +:+ dquote +:+ comment
                      +:+ dquote +:+ rest) ∧
    (∃ front, prompt = front +:+ "Reply:").
Proof.
  assert (∃ tone', tone' ∈ known_tones ∧
            create_prompt comment tone = create_prompt comment tone')
    as (tone' & Hin & ->).
  { destruct (decide (tone ∈ known_tones)) as [Hin | Hout]; [by exists tone|].
    exists "inviting". split; [compute_done|].
    by apply create_prompt_fallback, tone_guidelines_None. }
  destruct (create_prompt_known comment tone' Hin) as (info & ts & ->).
  destruct (strip_full_prompt comment ts info) as [Hhead Htail].
  eexists. split; [done|]. split; [apply strip_trimmed | done].
Qed.

(** C7. Composing with a tone outside the five known ones gives exactly
    the string composing with [inviting] gives. *)
Theorem create_prompt_unknown_tone (comment tone : string) :
  tone ∉ known_tones →
  create_prompt comment tone = create_prompt comment "inviting".
Proof.
  intros Hout. by apply create_prompt_fallback, tone_guidelines_None.
Qed.

Lemma create_prompt_unknown_tone_witness :
  create_prompt "Nice post." "sarcastic" = create_prompt "Nice post." "inviting".
Proof. apply create_prompt_unknown_tone. compute_done. Defined.

(** C8. [create_prompt] is total: for every comment and every tone string
    it returns a prompt and raises nothing. The prompt has no whitespace
    at either end (its first words are [A user has left this comment:],
    its last one is [Reply:]), and it contains the comment verbatim
    between double quotes, right after those first words. *)
Theorem create_prompt_total_trimmed_quotes (comment tone : string) :
  ∃ prompt,
    create_prompt comment tone = Returns prompt ∧
    trimmed prompt ∧
    substring_of (dquote +:+ comment +:+ dquote) prompt ∧
    (∃ rest, prompt = "A user has left this comment: " +:+ dquote +:+ comment
                      +:+ dquote +:+ rest) ∧
    (∃ front, prompt = front +:+ "Reply:").
Proof.
  destruct (create_prompt_returns comment tone)
    as (prompt & Hret & Htrim & [rest Heq] & Htail).
  exists prompt. split; [done|]. split; [done|].
  split; [|split; [by exists rest | done]].
  exists "A user has left this comment: ", rest.
  by rewrite Heq, !append_assoc.
Qed.

(** The composer on the comment of the fourth scenario, tone [witty]. *)
Example create_prompt_witty_head :
  ∃ rest, create_prompt "Nice post." "witty" =
    Returns ("A user has left this comment: " +:+ dquote +:+ "Nice post."
             +:+ dquote +:+ rest).
Proof. eexists. vm_compute. reflexivity. Qed.

End PromptGeneratorFacts.

(** ** Tone resolution and the reply orchestrator *)

Module OrchestratorFacts.
Import PyStr Py PromptGenerator CommentReplyAI Spec PyStrFacts.
Import PromptGeneratorFacts.

(** *** The reply dictionary *)

Lemma reply_dict_lookup (reply tone_used sentiment_detected success error : value) :
  let d := reply_dict reply tone_used sentiment_detected success error in
  d !! "reply" = Some reply ∧
  d !! "tone_used" = Some tone_used ∧
  d !! "sentiment_detected" = Some sentiment_detected ∧
  d !! "success" = Some success ∧
  d !! "error" = Some error.
Proof. repeat split; vm_compute; reflexivity. Qed.

Lemma reply_dict_dom (reply tone_used sentiment_detected success error : value) :
  dom (reply_dict reply tone_used sentiment_detected success error)
  = reply_keys.
Proof.
  unfold reply_dict, reply_keys. rewrite dom_list_to_map_L. simpl.
  set_solver.
Qed.

Lemma reply_of_shape (sentiment tone : string) (answer : outcome string) :
  reply_shape (reply_of sentiment tone answer).
Proof.
  unfold reply_shape, reply_of.
  destruct answer as [text | e];
    match goal with
    | |- context [reply_dict ?r ?t ?s ?ok ?err] =>
        destruct (reply_dict_lookup r t s ok err) as (-> & _ & _ & -> & ->)
    end;
    (split; [apply reply_dict_dom|]).
  - split; [by exists true|]. split; [done|].
    split; [split; eauto | discriminate].
  - split; [by exists false|]. split; [split; discriminate|].
    split; [split; [discriminate | by intros [? ?]] | eauto].
Qed.

Lemma reply_of_tone_used (sentiment tone : string) (answer : outcome string) :
  reply_of sentiment tone answer !! "tone_used" = Some (PyStr tone).
Proof. destruct answer; vm_compute; reflexivity. Qed.

Lemma reply_of_sentiment_detected (sentiment tone : string)
    (answer : outcome string) :
  reply_of sentiment tone answer !! "sentiment_detected"
  = Some (PyStr sentiment).
Proof. destruct answer; vm_compute; reflexivity. Qed.

(** *** Tone resolution *)

Lemma determine_tone_values (sentiment : string) :
  determine_tone sentiment ∈ ["empathetic"; "humble"; "biblical"; "inviting"].
Proof.
  unfold determine_tone. destruct (tone_mapping !! sentiment) as [tone|] eqn:Hm.
  - apply elem_of_list_to_map_2 in Hm. rewrite !elem_of_cons in *.
    rewrite elem_of_nil in Hm.
    destruct Hm as [[= _ ->] | [[= _ ->] | [[= _ ->] | [[= _ ->] | []]]]]; tauto.
  - simpl. rewrite !elem_of_cons. tauto.
Qed.

Lemma resolve_tone_override (sentiment override : string) :
  override ≠ EmptyString → resolve_tone sentiment (Some override) = override.
Proof. by destruct override. Qed.

Lemma known_tone_nonempty (tone : string) :
  tone ∈ known_tones → tone ≠ EmptyString.
Proof.
  unfold known_tones. rewrite !elem_of_cons, elem_of_nil.
  intros [-> | [-> | [-> | [-> | [-> | []]]]]]; discriminate.
Qed.

(** *** [generate_reply] *)

Section Runtime.
Context (str_lower : string → string).
Context {World : Type}.
Context (chat_completions_create :
           ChatRequest → World → outcome ChatCompletion * World).
Context (self : Self).

(** Inside this section the methods are written as the source calls
    them, with the runtime, the provider and [self] understood. *)
#[local] Abbreviation analyze_comment_sentiment :=
  (CommentReplyAI.analyze_comment_sentiment str_lower).
#[local] Abbreviation generate_reply :=
  (CommentReplyAI.generate_reply str_lower chat_completions_create self).
#[local] Abbreviation batch_generate_replies :=
  (CommentReplyAI.batch_generate_replies str_lower chat_completions_create
     self).
#[local] Abbreviation state_before :=
  (Spec.state_before str_lower chat_completions_create self).

(** One run of [generate_reply]: the sentiment and the tone are bound,
    the prompt is composed, the provider is called once, and the result is
    the reply dictionary of what the call and the reading of its response
    gave; the [except] handler finds both locals bound. *)
Lemma generate_reply_run (comment : string)
    (custom_tone model_arg : option string) (w : World) :
  let sentiment := analyze_comment_sentiment comment in
  let tone := resolve_tone sentiment custom_tone in
  ∃ prompt,
    create_prompt comment tone = Returns prompt ∧
    generate_reply comment custom_tone model_arg w =
      let '(o, w') :=
        chat_completions_create
          (chat_request self (or_else model_arg (model self)) prompt) w in
      (reply_of sentiment tone (o ≫= reply_text), w').
Proof.
  intros sentiment tone.
  destruct (create_prompt_returns comment tone) as (prompt & Hp & _).
  exists prompt. split; [done|].
  unfold CommentReplyAI.generate_reply, generate_reply_try.
  cbv [mbind Try_bind mret Try_ret assign_sentiment assign_tone pure_step
       call_provider].
  fold sentiment. fold tone. rewrite Hp.
  cbn [local_sentiment local_tone provider].
  destruct (chat_completions_create _ w) as [[response | e] w']; [|done].
  cbn [outcome_bind]. by destruct (reply_text response).
Qed.

Lemma generate_reply_result (comment : string)
    (custom_tone model_arg : option string) (w : World) :
  ∃ answer,
    (generate_reply comment custom_tone model_arg w).1 =
      reply_of (analyze_comment_sentiment comment)
        (resolve_tone (analyze_comment_sentiment comment) custom_tone) answer.
Proof.
  destruct (generate_reply_run comment custom_tone model_arg w)
    as (prompt & _ & ->).
  destruct (chat_completions_create _ w) as [o w']. by exists (o ≫= reply_text).
Qed.

(** C3. Without an override the tone is the fixed mapping of the
    sentiment: struggling to empathetic, positive to humble, questioning to
    biblical, neutral to inviting. The mapping never gives [witty],
    whatever the sentiment string; [witty] is the tone only when it is the
    override. The tone [generate_reply] reports without an override is
    that mapping of the sentiment it detected. *)
Theorem determine_tone_fixed_mapping :
  determine_tone "struggling" = "empathetic" ∧
  determine_tone "positive" = "humble" ∧
  determine_tone "questioning" = "biblical" ∧
  determine_tone "neutral" = "inviting" ∧
  (∀ sentiment, resolve_tone sentiment None = determine_tone sentiment) ∧
  (∀ sentiment, resolve_tone sentiment None ≠ "witty") ∧
  (∀ sentiment, resolve_tone sentiment (Some "witty") = "witty") ∧
  (∀ comment model_arg w,
     (generate_reply comment None model_arg w).1 !! "tone_used"
     = Some (PyStr (determine_tone (analyze_comment_sentiment comment)))).
Proof.
  repeat split; try reflexivity.
  - intros sentiment Heq. change (determine_tone sentiment = "witty") in Heq.
    pose proof (determine_tone_values sentiment) as Hin. rewrite Heq in Hin.
    rewrite !elem_of_cons, elem_of_nil in Hin.
    by destruct Hin as [? | [? | [? | [? | []]]]].
  - intros comment model_arg w.
    destruct (generate_reply_result comment None model_arg w) as [answer ->].
    apply reply_of_tone_used.
Qed.

(** C4. An override that is one of the five known tones is the tone,
    whatever the sentiment; the sentiment is still computed from the
    comment and reported next to it. *)
Theorem generate_reply_known_override (comment override : string)
    (model_arg : option string) (w : World) :
  override ∈ known_tones →
  (∀ sentiment, resolve_tone sentiment (Some override) = override) ∧
  (generate_reply comment (Some override) model_arg w).1 !! "tone_used"
  = Some (PyStr override) ∧
  (generate_reply comment (Some override) model_arg w).1
    !! "sentiment_detected"
  = Some (PyStr (analyze_comment_sentiment comment)).
Proof.
  intros Hin%known_tone_nonempty.
  assert (∀ sentiment, resolve_tone sentiment (Some override) = override)
    as Hres by (intros; by apply resolve_tone_override).
  split; [done|].
  destruct (generate_reply_result comment (Some override) model_arg w)
    as [answer ->].
  rewrite Hres. split.
  - apply reply_of_tone_used.
  - apply reply_of_sentiment_detected.
Qed.

(** C5. When the call to the provider raises, [generate_reply] raises
    nothing: it returns the dictionary with [success] false, [reply]
    [None], [error] the text of the exception, and [tone_used] and
    [sentiment_detected] set to the tone and the sentiment computed before
    the call. *)
Theorem generate_reply_provider_raises (comment : string)
    (custom_tone model_arg : option string) (w : World)
    (prompt : string) (e : exn) (w' : World) :
  let sentiment := analyze_comment_sentiment comment in
  let tone := resolve_tone sentiment custom_tone in
  create_prompt comment tone = Returns prompt →
  chat_completions_create
    (chat_request self (or_else model_arg (model self)) prompt) w
  = (Raises e, w') →
  generate_reply comment custom_tone model_arg w =
    (reply_dict PyNone (PyStr tone) (PyStr sentiment) (PyBool false)
       (PyStr (exn_str e)),
     w').
Proof.
  intros sentiment tone Hprompt Hcall.
  destruct (generate_reply_run comment custom_tone model_arg w)
    as (prompt' & Hprompt' & ->).
  fold sentiment in Hprompt'. fold tone in Hprompt'.
  rewrite Hprompt in Hprompt'. injection Hprompt' as <-.
  by rewrite Hcall.
Qed.

(** C9. The empty string as override is the same as no override: the
    tone falls through to the mapping of the sentiment, and the whole
    result is the same. *)
Theorem generate_reply_empty_override (comment : string)
    (model_arg : option string) (w : World) :
  (∀ sentiment,
     resolve_tone sentiment (Some EmptyString) = determine_tone sentiment) ∧
  generate_reply comment (Some EmptyString) model_arg w
  = generate_reply comment None model_arg w.
Proof.
  split; [done|].
  destruct (generate_reply_run comment (Some EmptyString) model_arg w)
    as (prompt1 & Hp1 & ->).
  destruct (generate_reply_run comment None model_arg w)
    as (prompt2 & Hp2 & ->).
  change (resolve_tone (analyze_comment_sentiment comment) (Some EmptyString))
    with (resolve_tone (analyze_comment_sentiment comment) None) in *.
  rewrite Hp1 in Hp2. by injection Hp2 as <-.
Qed.


(** X3. When the provider answers with a completion that cannot be read (no
    choice, or a first choice without text), reading it raises inside the
    [try] block and the result is the failure dictionary, with the tone
    and the sentiment. *)
Theorem generate_reply_malformed_response (comment : string)
    (custom_tone model_arg : option string) (w : World)
    (prompt : string) (response : ChatCompletion) (e : exn) (w' : World) :
  let sentiment := analyze_comment_sentiment comment in
  let tone := resolve_tone sentiment custom_tone in
  create_prompt comment tone = Returns prompt →
  chat_completions_create
    (chat_request self (or_else model_arg (model self)) prompt) w
  = (Returns response, w') →
  reply_text response = Raises e →
  generate_reply comment custom_tone model_arg w =
    (reply_dict PyNone (PyStr tone) (PyStr sentiment) (PyBool false)
       (PyStr (exn_str e)),
     w').
Proof.
  intros sentiment tone Hprompt Hcall Hread.
  destruct (generate_reply_run comment custom_tone model_arg w)
    as (prompt' & Hprompt' & ->).
  fold sentiment in Hprompt'. fold tone in Hprompt'.
  rewrite Hprompt in Hprompt'. injection Hprompt' as <-.
  rewrite Hcall. cbn [mbind outcome_bind]. by rewrite Hread.
Qed.

(** A call of [generate_reply] leaves the provider in the state its one
    call of the provider left it; with a provider that keeps no state,
    that is the state before. *)
Lemma generate_reply_stateless (answer : ChatRequest → outcome ChatCompletion)
    (comment : string) (custom_tone model_arg : option string) (w : World) :
  (∀ request w0, chat_completions_create request w0 = (answer request, w0)) →
  (generate_reply comment custom_tone model_arg w).2 = w.
Proof.
  intros Hstateless.
  destruct (generate_reply_run comment custom_tone model_arg w)
    as (prompt & _ & ->).
  by rewrite Hstateless.
Qed.

(** C2, the code at an override outside the five known tones, here
    ['sarcastic']: [generate_reply] does not validate it. The dictionary
    reports it as [tone_used], although [validate_tone] rejects it and the
    prompt that is sent is the one composed for [inviting]. *)
Theorem generate_reply_reports_unknown_override (comment : string)
    (model_arg : option string) (w : World) :
  ("sarcastic" ∉ known_tones) ∧
  validate_tone "sarcastic" = false ∧
  (generate_reply comment (Some "sarcastic") model_arg w).1 !! "tone_used"
  = Some (PyStr "sarcastic") ∧
  create_prompt comment
    (resolve_tone (analyze_comment_sentiment comment) (Some "sarcastic"))
  = create_prompt comment "inviting".
Proof.
  assert ("sarcastic" ∉ known_tones) as Hout by compute_done.
  split; [done|]. split; [by vm_compute|]. split.
  - destruct (generate_reply_result comment (Some "sarcastic") model_arg w)
      as [answer ->].
    apply reply_of_tone_used.
  - by apply create_prompt_fallback, tone_guidelines_None.
Qed.

(** *** [batch_generate_replies] *)

Lemma default_lookup_override (custom_tones : option (gmap Z string))
    (i : nat) :
  default ∅ custom_tones !! Z.of_nat i = override_at custom_tones i.
Proof. destruct custom_tones as [tones|]; [done | apply lookup_empty]. Qed.

(** The loop appends, in order, the result of [generate_reply] for each
    remaining comment, each call starting in the state the one before it
    left. *)
Lemma batch_loop_spec (comments : list string)
    (custom_tones : option (gmap Z string)) :
  ∀ (i : nat) (results : list (gmap string value)) (w : World),
    batch_loop str_lower chat_completions_create self i comments
      (default ∅ custom_tones) results w
    = (results ++
         imap (λ k comment,
                 (generate_reply comment (override_at custom_tones (i + k))
                    None (state_before i comments custom_tones k w)).1)
           comments,
       state_before i comments custom_tones (length comments) w).
Proof.
  induction comments as [|comment rest IH]; intros i results w.
  - simpl. by rewrite app_nil_r.
  - cbn [batch_loop imap length]. rewrite default_lookup_override.
    destruct (generate_reply comment (override_at custom_tones i) None w)
      as [result w1] eqn:Hgen.
    rewrite IH, <- app_assoc. cbn [Spec.state_before]. rewrite Hgen.
    rewrite Nat.add_0_r, Hgen. cbn [fst snd app]. do 3 f_equal.
    apply imap_ext. intros k c _. cbn. by rewrite Nat.add_succ_r.
Qed.

Lemma state_before_stateless (answer : ChatRequest → outcome ChatCompletion)
    (comments : list string) (custom_tones : option (gmap Z string)) :
  (∀ request w0, chat_completions_create request w0 = (answer request, w0)) →
  ∀ (i k : nat) (w : World), state_before i comments custom_tones k w = w.
Proof.
  intros Hstateless.
  induction comments as [|comment rest IH]; intros i [|k] w; try done.
  cbn [Spec.state_before].
  by rewrite (generate_reply_stateless answer), IH.
Qed.

(** C6. A batch of [N] comments returns [N] results in the order of the
    comments: result [i] is what [generate_reply] returns for comment [i]
    with the override mapped to index [i] (none when the index is not
    mapped, or when no mapping is given), run in the state the provider is
    in after the calls for the comments before it. The loop has no exit
    but the end of the list, so this holds whether or not any of the calls
    fails. With a provider that keeps no state, result [i] is a function
    of comment [i] and its override alone: what happens to the other
    comments does not reach it. *)
Theorem batch_generate_replies_pointwise (comments : list string)
    (custom_tones : option (gmap Z string)) (w : World) :
  let results := (batch_generate_replies comments custom_tones w).1 in
  let result_at i comment :=
    (generate_reply comment (override_at custom_tones i) None
       (state_before 0 comments custom_tones i w)).1 in
  length results = length comments ∧
  results = imap result_at comments ∧
  (∀ i, results !! i = result_at i <$> comments !! i) ∧
  (∀ answer,
     (∀ request w0, chat_completions_create request w0 = (answer request, w0)) →
     results =
       imap (λ i comment,
               (generate_reply comment (override_at custom_tones i) None w).1)
         comments).
Proof.
  intros results result_at.
  assert (results = imap result_at comments) as Heq.
  { subst results. unfold CommentReplyAI.batch_generate_replies.
    by rewrite batch_loop_spec. }
  split; [by rewrite Heq, length_imap|]. split; [done|]. split.
  - intros i. by rewrite Heq, list_lookup_imap.
  - intros answer Hstateless. rewrite Heq. apply imap_ext.
    intros i comment _. subst result_at. cbn beta.
    by rewrite (state_before_stateless answer).
Qed.

(** C10. Every dictionary [generate_reply] returns, and so every element
    of what [batch_generate_replies] returns, has exactly the keys
    [reply], [tone_used], [sentiment_detected], [success] and [error];
    [success] is true exactly when [error] is [None], which is exactly
    when [reply] is a string; when [success] is false, [reply] is [None]
    and [error] is a string. *)
Theorem reply_results_shape :
  (∀ comment custom_tone model_arg w,
     reply_shape (generate_reply comment custom_tone model_arg w).1) ∧
  (∀ comments custom_tones w,
     Forall reply_shape (batch_generate_replies comments custom_tones w).1).
Proof.
  assert (∀ comment custom_tone model_arg w,
            reply_shape (generate_reply comment custom_tone model_arg w).1)
    as Hone.
  { intros comment custom_tone model_arg w.
    destruct (generate_reply_result comment custom_tone model_arg w)
      as [answer ->].
    apply reply_of_shape. }
  split; [done|].
  intros comments custom_tones w.
  unfold CommentReplyAI.batch_generate_replies.
  rewrite batch_loop_spec. cbn [fst app].
  apply Forall_lookup_2. intros i d. rewrite list_lookup_imap.
  destruct (comments !! i) as [comment|]; [|done].
  intros [= <-]. apply Hone.
Qed.

End Runtime.

End OrchestratorFacts.

(** ** The model run on the scenarios of the specification *)

Module Scenarios.
Import PyStr Py PromptGenerator CommentReplyAI Spec Fixtures.
Import OrchestratorFacts.

Lemma generate_reply_known_override_witness :
  let result :=
    (generate_reply ascii_lower answering settings "Nice post."
       (Some "witty") None 0%nat).1 in
  "witty" ∈ known_tones ∧
  result !! "tone_used" = Some (PyStr "witty") ∧
  result !! "sentiment_detected" = Some (PyStr "neutral").
Proof.
  assert ("witty" ∈ known_tones) as Hin by compute_done.
  split; [exact Hin|].
  exact (proj2 (generate_reply_known_override ascii_lower answering settings
                  "Nice post." "witty" None 0%nat Hin)).
Defined.

Lemma generate_reply_provider_raises_witness :
  generate_reply ascii_lower unreachable settings
    "I'm struggling to believe this applies to me." None None 0%nat
  = (reply_dict PyNone (PyStr "empathetic") (PyStr "struggling")
       (PyBool false) (PyStr "Connection error."),
     1%nat).
Proof.
  set (comment := "I'm struggling to believe this applies to me.").
  assert (analyze_comment_sentiment ascii_lower comment = "struggling")
    as Hsentiment by (vm_compute; reflexivity).
  assert (resolve_tone "struggling" None = "empathetic")
    as Htone by (vm_compute; reflexivity).
  destruct (create_prompt comment "empathetic") as [prompt | e] eqn:Hprompt;
    [|by vm_compute in Hprompt].
  rewrite <- Htone, <- Hsentiment in Hprompt.
  pose proof (generate_reply_provider_raises ascii_lower unreachable settings
                comment None None 0%nat prompt APIConnectionError 1%nat
                Hprompt eq_refl) as Hrun.
  cbv zeta in Hrun. rewrite Hsentiment, Htone in Hrun. exact Hrun.
Defined.


Lemma generate_reply_malformed_response_witness :
  generate_reply ascii_lower answering_nothing settings "Nice post."
    None None 0%nat
  = (reply_dict PyNone (PyStr "inviting") (PyStr "neutral") (PyBool false)
       (PyStr "list index out of range"),
     1%nat).
Proof.
  set (comment := "Nice post.").
  assert (analyze_comment_sentiment ascii_lower comment = "neutral")
    as Hsentiment by (vm_compute; reflexivity).
  assert (resolve_tone "neutral" None = "inviting")
    as Htone by (vm_compute; reflexivity).
  destruct (create_prompt comment "inviting") as [prompt | e] eqn:Hprompt;
    [|by vm_compute in Hprompt].
  rewrite <- Htone, <- Hsentiment in Hprompt.
  pose proof (generate_reply_malformed_response ascii_lower answering_nothing
                settings comment None None 0%nat prompt _ IndexError 1%nat
                Hprompt eq_refl eq_refl) as Hrun.
  cbv zeta in Hrun. rewrite Hsentiment, Htone in Hrun. exact Hrun.
Defined.

(** Scenario 1 with a provider that answers: the generated text is
    trimmed and reported with the sentiment and the tone. *)
Example scenario_struggling :
  fields (generate_reply ascii_lower answering settings
            "I'm struggling to believe this applies to me." None None 0%nat).1
  = [Some (PyStr "Grace and peace to you."); Some (PyStr "empathetic");
     Some (PyStr "struggling"); Some (PyBool true); Some PyNone].
Proof. vm_compute. reflexivity. Qed.

(** Scenarios 2 and 3 with a provider that is down: the sentiment and the
    tone are reported all the same. *)
Example scenario_positive :
  fields (generate_reply ascii_lower unreachable settings
            "Thank you so much for this!" None None 0%nat).1
  = [Some PyNone; Some (PyStr "humble"); Some (PyStr "positive");
     Some (PyBool false); Some (PyStr "Connection error.")].
Proof. vm_compute. reflexivity. Qed.

Example scenario_questioning :
  fields (generate_reply ascii_lower unreachable settings
            "Why does this keep happening to me?" None None 0%nat).1
  = [Some PyNone; Some (PyStr "biblical"); Some (PyStr "questioning");
     Some (PyBool false); Some (PyStr "Connection error.")].
Proof. vm_compute. reflexivity. Qed.

(** A completion without choices is a failure of the same kind: reading
    [choices[0]] raises inside the [try] block. *)
Example scenario_no_choice :
  fields (generate_reply ascii_lower answering_nothing settings
            "Thank you so much for this!" None None 0%nat).1
  = [Some PyNone; Some (PyStr "humble"); Some (PyStr "positive");
     Some (PyBool false); Some (PyStr "list index out of range")].
Proof. vm_compute. reflexivity. Qed.

(** An override outside the known tones is reported as it was given. *)
Example scenario_unknown_override :
  fields (generate_reply ascii_lower answering settings
            "Nice post." (Some "sarcastic") None 0%nat).1
  = [Some (PyStr "Grace and peace to you."); Some (PyStr "sarcastic");
     Some (PyStr "neutral"); Some (PyBool true); Some PyNone].
Proof. vm_compute. reflexivity. Qed.

(** A batch of three comments whose second call fails: three results, in
    order, the second one the failure, the third one with its override. *)
Example scenario_batch_failure :
  fields <$>
    (batch_generate_replies ascii_lower failing_second settings
       ["Thank you so much for this!"; "Why does this keep happening to me?";
        "Nice post."]
       (Some {[ 2%Z := "witty" ]}) 0%nat).1
  = [ [Some (PyStr "Grace and peace to you."); Some (PyStr "humble");
       Some (PyStr "positive"); Some (PyBool true); Some PyNone];
      [Some PyNone; Some (PyStr "biblical"); Some (PyStr "questioning");
       Some (PyBool false); Some (PyStr "Connection error.")];
      [Some (PyStr "Grace and peace to you."); Some (PyStr "witty");
       Some (PyStr "neutral"); Some (PyBool true); Some PyNone] ].
Proof. vm_compute. reflexivity. Qed.

End Scenarios.

(** ** The lookup methods of the prompt generator *)

Module CatalogueFacts.
Import PyStr Py PromptGenerator CommentReplyAI ToneCatalogue Spec Vocabulary.
Import PyStrFacts PromptGeneratorFacts.

Lemma validate_tone_true (tone : string) :
  validate_tone tone = true ↔ tone ∈ known_tones.
Proof.
  unfold validate_tone. rewrite bool_decide_eq_true.
  pose proof (tone_guidelines_None tone) as Hnone.
  destruct (tone_guidelines !! tone) as [info|].
  - split; [intros _|by eauto].
    destruct (decide (tone ∈ known_tones)) as [|Hout]; [done|].
    apply Hnone in Hout. discriminate Hout.
  - split; [by intros [? ?]|]. intros Hin. by destruct (proj1 Hnone eq_refl).
Qed.

Lemma validate_tone_false (tone : string) :
  validate_tone tone = false ↔ tone ∉ known_tones.
Proof.
  rewrite <- validate_tone_true. destruct (validate_tone tone); naive_solver.
Qed.

Lemma available_tones_known (tone : string) :
  tone ∈ get_available_tones ↔ tone ∈ known_tones.
Proof. done. Qed.

Ltac each_known_tone H :=
  unfold known_tones in H; rewrite !elem_of_cons, elem_of_nil in H;
  destruct H as [-> | [-> | [-> | [-> | [-> | []]]]]].


(** X5. [get_tone_description] gives [Tone not found] for the tones
    [validate_tone] rejects and for no other: no description of a
    supported tone is that text. *)
Theorem get_tone_description_not_found (tone : string) :
  get_tone_description tone = "Tone not found" ↔ validate_tone tone = false.
Proof.
  rewrite validate_tone_false. split.
  - intros Hdesc Hin. each_known_tone Hin; discriminate Hdesc.
  - intros Hout%tone_guidelines_None. unfold get_tone_description.
    by rewrite Hout.
Qed.

Lemma examples_None (tone : string) :
  examples !! tone = None ↔ tone ∉ known_tones.
Proof. unfold examples. by rewrite <- not_elem_of_list_to_map. Qed.

Lemma examples_lookup (tone : string) :
  tone ∈ known_tones →
  ∃ comment reply,
    examples !! tone
    = Some (list_to_map [("comment", comment); ("reply", reply)]).
Proof.
  intros Hin. each_known_tone Hin; eexists _, _;
    (apply elem_of_list_to_map_1; [compute_done|]);
    repeat first [apply list_elem_of_here | apply list_elem_of_further].
Qed.

Lemma dom_comment_reply (comment reply : string) :
  dom (list_to_map [("comment", comment); ("reply", reply)]
         : gmap string string)
  = {[ "comment"; "reply" ]}.
Proof. rewrite dom_list_to_map_L. cbn. set_solver. Qed.

(** X6. [get_tone_examples] gives a dict with exactly the keys [comment]
    and [reply] for a tone [validate_tone] accepts, and the empty dict
    for the tones it rejects and for no other. *)
Theorem get_tone_examples_keys (tone : string) :
  (validate_tone tone = true →
     dom (get_tone_examples tone) = {[ "comment"; "reply" ]}) ∧
  (get_tone_examples tone = ∅ ↔ validate_tone tone = false).
Proof.
  rewrite validate_tone_true, validate_tone_false.
  assert (tone ∈ known_tones →
          dom (get_tone_examples tone) = {[ "comment"; "reply" ]}) as Hin.
  { intros (comment & reply & Hex)%examples_lookup.
    unfold get_tone_examples. rewrite Hex. apply dom_comment_reply. }
  split; [done|]. split.
  - intros Hempty Hk%Hin. rewrite Hempty, dom_empty_L in Hk.
    assert ("comment" ∈ (∅ : gset string)) as Habs by (rewrite Hk; set_solver).
    set_solver.
  - intros Hout%examples_None. unfold get_tone_examples. by rewrite Hout.
Qed.
End CatalogueFacts.

(** ** More on the prompt composer *)

Module ComposerFacts.
Import PyStr Py PromptGenerator CommentReplyAI ToneCatalogue Spec Vocabulary.
Import PyStrFacts PromptGeneratorFacts CatalogueFacts.

Lemma effective_tone_known (tone : string) : effective_tone tone ∈ known_tones.
Proof.
  unfold effective_tone. destruct (validate_tone tone) eqn:Hv.
  - by apply validate_tone_true.
  - compute_done.
Qed.

Lemma create_prompt_effective (comment tone : string) :
  create_prompt comment tone = create_prompt comment (effective_tone tone).
Proof.
  unfold effective_tone. destruct (validate_tone tone) eqn:Hv; [done|].
  by apply create_prompt_fallback, tone_guidelines_None, validate_tone_false.
Qed.

Lemma append_length (s t : string) :
  String.length (s +:+ t) = (String.length s + String.length t)%nat.
Proof. induction s as [|c s IH]; [done|]. rewrite append_cons. simpl. by rewrite IH. Qed.

Lemma append_cancel_r (a b t : string) : a +:+ t = b +:+ t → a = b.
Proof.
  revert b. induction a as [|c a IH]; intros [|d b] Heq; [done|..].
  - apply (f_equal String.length) in Heq.
    rewrite !append_length in Heq. simpl in Heq. lia.
  - apply (f_equal String.length) in Heq.
    rewrite !append_length in Heq. simpl in Heq. lia.
  - rewrite !append_cons in Heq. injection Heq as -> Heq. f_equal. by apply IH.
Qed.

Lemma substring_of_skip (needle a t : string) :
  substring_of needle t → substring_of needle (a +:+ t).
Proof.
  intros (before & after & ->). exists (a +:+ before), after.
  by rewrite append_assoc.
Qed.

(** With a known tone, what [create_prompt] returns is the same text
    around the comment, whatever the comment. *)
Lemma create_prompt_known_tail (tone : string) :
  tone ∈ known_tones →
  ∃ tail, ∀ comment,
    create_prompt comment tone =
      Returns ("A user has left this comment: " +:+ dquote +:+ comment
               +:+ dquote +:+ tail).
Proof.
  intros Hin. destruct (known_tone_bound tone Hin) as (info & ts & Hinfo & Hts).
  eexists. intros comment.
  unfold create_prompt, getitem. rewrite !Hinfo.
  cbn [mbind outcome_bind mret outcome_ret]. rewrite Hts.
  cbn [mbind outcome_bind mret outcome_ret]. f_equal.
  unfold full_prompt, strip.
  rewrite lstrip_app by (vm_compute; discriminate).
  rewrite !rstrip_app
    by (repeat apply rstrip_app_ne; vm_compute; discriminate).
  reflexivity.
Qed.

(** X7. The prompt for a comment is the prompt for the empty comment with
    the comment placed between the two double quotes: nothing else in the
    prompt depends on the comment, and nothing in the comment is changed
    or escaped. *)
Theorem create_prompt_splices_comment (comment tone : string) :
  create_prompt comment tone =
    Returns (prompt_head +:+ dquote +:+ comment +:+ dquote
             +:+ prompt_tail tone).
Proof.
  destruct (create_prompt_known_tail _ (effective_tone_known tone))
    as [tail Htail].
  rewrite create_prompt_effective, Htail. unfold prompt_tail.
  by rewrite (create_prompt_effective _ tone), Htail.
Qed.

Lemma prompt_tail_effective (tone : string) :
  prompt_tail tone = prompt_tail (effective_tone tone).
Proof. unfold prompt_tail. by rewrite create_prompt_effective. Qed.

(** X8. Every prompt carries, verbatim, the universal instructions, the
    style of the tone it is composed for in a line [- Be ...], and the
    closing line with that tone's description and focus. *)
Theorem create_prompt_carries_profile (comment tone : string) :
  ∃ prompt tone_info,
    create_prompt comment tone = Returns prompt ∧
    tone_guidelines !! effective_tone tone = Some tone_info ∧
    substring_of base_instructions prompt ∧
    substring_of ("- Be " +:+ style tone_info) prompt ∧
    substring_of ("Generate a reply that is " +:+ description tone_info
                  +:+ " and focuses on " +:+ focus tone_info +:+ ".") prompt.
Proof.
  rewrite create_prompt_splices_comment, prompt_tail_effective.
  pose proof (effective_tone_known tone) as Hin.
  revert Hin. generalize (effective_tone tone). intros eff Hin.
  each_known_tone Hin; eexists _, _; (split; [reflexivity|]);
    (split; [vm_compute; reflexivity|]);
    repeat split; do 4 apply substring_of_skip;
    apply contains_spec; vm_compute; reflexivity.
Qed.

(** X9. For a fixed tone the prompt determines the comment; for a fixed
    comment two tones give the same prompt exactly when [create_prompt]
    composes for the same tone, that is when they are the same known tone
    or both are unknown. *)
Theorem create_prompt_injective (comment1 comment2 tone1 tone2 : string) :
  (create_prompt comment1 tone1 = create_prompt comment2 tone1 →
   comment1 = comment2) ∧
  (create_prompt comment1 tone1 = create_prompt comment1 tone2 ↔
   effective_tone tone1 = effective_tone tone2).
Proof.
  split.
  - rewrite !create_prompt_splices_comment. intros [= Heq].
    exact (append_cancel_r _ _ (dquote +:+ prompt_tail tone1) Heq).
  - split.
    + rewrite !create_prompt_splices_comment. intros [= Heq].
      change (comment1 +:+ dquote +:+ prompt_tail tone1
              = comment1 +:+ dquote +:+ prompt_tail tone2) in Heq.
      do 2 apply (inj (String.app _)) in Heq.
      rewrite (prompt_tail_effective tone1), (prompt_tail_effective tone2)
        in Heq.
      pose proof (effective_tone_known tone1) as Hin1.
      pose proof (effective_tone_known tone2) as Hin2.
      revert Heq Hin1 Hin2.
      generalize (effective_tone tone1) (effective_tone tone2).
      intros eff1 eff2 Heq Hin1 Hin2.
      each_known_tone Hin1; each_known_tone Hin2; try reflexivity;
        exfalso; apply String.eqb_eq in Heq; vm_compute in Heq;
        discriminate Heq.
    + intros Heq.
      by rewrite (create_prompt_effective _ tone1), Heq,
        <- create_prompt_effective.
Qed.
End ComposerFacts.

(** ** More on the classifier, the orchestrator and the batch *)

Module ReplyFacts.
Import PyStr Py PromptGenerator CommentReplyAI ToneCatalogue Spec Vocabulary.
Import PyStrFacts ClassifierFacts PromptGeneratorFacts OrchestratorFacts.

(** X10. [determine_tone] gives [inviting] for [neutral] and for every
    string that is no key of its mapping; only the three other
    sentiments give another tone. *)
Theorem determine_tone_default (sentiment : string) :
  determine_tone sentiment = "inviting" ↔
  sentiment ≠ "struggling" ∧ sentiment ≠ "positive" ∧
  sentiment ≠ "questioning".
Proof.
  unfold determine_tone, tone_mapping. cbn [list_to_map foldr fst snd].
  destruct (decide (sentiment = "struggling")) as [->|H1]; [by split; [|intros [? _]]|].
  destruct (decide (sentiment = "positive")) as [->|H2]; [by split; [|intros (_ & ? & _)]|].
  destruct (decide (sentiment = "questioning")) as [->|H3]; [by split; [|intros (_ & _ & ?)]|].
  split; [done|]. intros _.
  rewrite !lookup_insert_ne by done.
  destruct (decide (sentiment = "neutral")) as [->|H4]; [done|].
  by rewrite lookup_insert_ne, lookup_empty.
Qed.

Lemma ascii_lower_app (a b : string) :
  ascii_lower (a +:+ b) = ascii_lower a +:+ ascii_lower b.
Proof.
  induction a as [|c a IH]; [done|]. rewrite append_cons. simpl.
  by rewrite IH, append_cons.
Qed.

Lemma mentions_context (keywords : list string) (before text after : string) :
  mentions keywords text → mentions keywords (before +:+ text +:+ after).
Proof.
  intros (keyword & Hin & (b & a & ->)). exists keyword. split; [done|].
  exists (before +:+ b), (a +:+ after). by rewrite !append_assoc.
Qed.

(** X11. Matching is by substring, with no word boundaries: a comment that
    classifies as struggling still does with any text put before and
    after it, directly or not. (With the ASCII [str.lower].) *)
Theorem struggling_survives_context (before comment after : string) :
  analyze_comment_sentiment ascii_lower comment = "struggling" →
  analyze_comment_sentiment ascii_lower (before +:+ comment +:+ after)
  = "struggling".
Proof.
  unfold analyze_comment_sentiment.
  destruct (any_keyword_in struggling_keywords (ascii_lower comment)) eqn:Hs.
  - intros _. apply any_keyword_in_spec in Hs.
    apply (mentions_context _ (ascii_lower before) _ (ascii_lower after)) in Hs.
    rewrite <- !ascii_lower_app in Hs. apply any_keyword_in_spec in Hs.
    by rewrite Hs.
  - by repeat case_match.
Qed.

Lemma struggling_survives_context_witness :
  analyze_comment_sentiment ascii_lower "Thanks for the new HARDWARE guide!"
  = "struggling".
Proof.
  apply (struggling_survives_context "Thanks for the new " "HARD" "WARE guide!").
  vm_compute. reflexivity.
Defined.

Section Runtime.
Context (str_lower : string → string).
Context {World : Type}.
Context (chat_completions_create :
           ChatRequest → World → outcome ChatCompletion * World).
Context (self : Self).

#[local] Abbreviation analyze_comment_sentiment :=
  (CommentReplyAI.analyze_comment_sentiment str_lower).
#[local] Abbreviation generate_reply :=
  (CommentReplyAI.generate_reply str_lower chat_completions_create self).
#[local] Abbreviation batch_generate_replies :=
  (CommentReplyAI.batch_generate_replies str_lower chat_completions_create
     self).
#[local] Abbreviation batch_loop :=
  (CommentReplyAI.batch_loop str_lower chat_completions_create self).

(** X12. One call of [generate_reply] calls the provider exactly once,
    whatever comes of it. The request names the model given as argument
    when that is a non-empty string and [self.model] otherwise, holds the
    system message and then the composed prompt as the user message, and
    carries the three settings of [self]. The result is built from the
    outcome of that one call. *)
Theorem generate_reply_single_call (comment : string)
    (custom_tone model_arg : option string) (w : World) :
  let sentiment := analyze_comment_sentiment comment in
  let tone := resolve_tone sentiment custom_tone in
  ∃ prompt,
    create_prompt comment tone = Returns prompt ∧
    let request :=
      {| req_model :=
           match model_arg with
           | Some (String c name) => String c name
           | _ => model self
           end;
         req_messages :=
           [ {| role := "system"; content := system_content |};
             {| role := "user"; content := prompt |} ];
         req_max_tokens := max_tokens self;
         req_temperature := temperature self;
         req_top_p := top_p self |} in
    generate_reply comment custom_tone model_arg w =
      (reply_of sentiment tone
         ((chat_completions_create request w).1 ≫= reply_text),
       (chat_completions_create request w).2).
Proof.
  intros sentiment tone.
  destruct (generate_reply_run str_lower chat_completions_create self
              comment custom_tone model_arg w) as (prompt & Hprompt & ->).
  exists prompt. split; [done|]. cbv zeta.
  replace (match model_arg with
           | Some (String c name) => String c name
           | _ => model self
           end) with (or_else model_arg (model self))
    by (by destruct model_arg as [[|??]|]).
  fold (chat_request self (or_else model_arg (model self)) prompt).
  by destruct (chat_completions_create _ w).
Qed.

Lemma batch_loop_agree (comments : list string)
    (tones1 tones2 : gmap Z string) :
  ∀ (i : nat) (results : list (gmap string value)) (w : World),
    (∀ k, (k < length comments)%nat →
          tones1 !! Z.of_nat (i + k) = tones2 !! Z.of_nat (i + k)) →
    batch_loop i comments tones1 results w
    = batch_loop i comments tones2 results w.
Proof.
  induction comments as [|comment rest IH]; intros i results w Hagree; [done|].
  cbn [CommentReplyAI.batch_loop].
  assert (tones1 !! Z.of_nat i = tones2 !! Z.of_nat i) as <-.
  { rewrite <- (Nat.add_0_r i). apply Hagree. simpl. lia. }
  destruct (generate_reply comment (tones1 !! Z.of_nat i) None w)
    as [result w'].
  apply IH. intros k Hk. replace (S i + k)%nat with (i + S k)%nat by lia.
  apply Hagree. simpl. lia.
Qed.

(** X13. Only the overrides at the indices of the comments are read: two
    mappings that agree on [0 .. N-1] give the same batch, so entries at
    negative indices or past the end are ignored. *)
Theorem batch_reads_overrides_in_range (comments : list string)
    (tones1 tones2 : gmap Z string) (w : World) :
  (∀ i, 0 ≤ i < Z.of_nat (length comments) → tones1 !! i = tones2 !! i) →
  batch_generate_replies comments (Some tones1) w
  = batch_generate_replies comments (Some tones2) w.
Proof.
  intros Hagree. unfold CommentReplyAI.batch_generate_replies.
  apply batch_loop_agree. intros k Hk. apply Hagree. lia.
Qed.

Lemma batch_loop_app (xs ys : list string) (tones : gmap Z string) :
  ∀ (i : nat) (results : list (gmap string value)) (w : World),
    batch_loop i (xs ++ ys) tones results w
    = let '(results1, w1) := batch_loop i xs tones results w in
      batch_loop (i + length xs) ys tones results1 w1.
Proof.
  induction xs as [|x xs IH]; intros i results w.
  - cbn. by rewrite Nat.add_0_r.
  - cbn [app CommentReplyAI.batch_loop length].
    destruct (generate_reply x (tones !! Z.of_nat i) None w) as [result w'].
    rewrite IH. by replace (S i + length xs)%nat with (i + S (length xs))%nat by lia.
Qed.

Lemma batch_loop_no_overrides (ys : list string) :
  ∀ (i : nat) (results : list (gmap string value)) (w : World),
    batch_loop i ys ∅ results w
    = let '(results2, w2) := batch_loop 0 ys ∅ [] w in
      (results ++ results2, w2).
Proof.
  induction ys as [|y ys IH]; intros i results w.
  - cbn. by rewrite app_nil_r.
  - cbn [CommentReplyAI.batch_loop]. rewrite !lookup_empty.
    destruct (generate_reply y None None w) as [result w'].
    rewrite (IH (S i)), (IH 1%nat).
    destruct (batch_loop 0 ys ∅ [] w') as [results2 w2].
    by rewrite <- app_assoc.
Qed.

(** X14. Without overrides, a batch over a list put together from two lists
    is the batch over the first followed by the batch over the second,
    the second starting in the provider state the first left; the batch
    over no comment is the empty list and calls nothing. *)
Theorem batch_generate_replies_app (xs ys : list string) (w : World) :
  batch_generate_replies [] None w = ([], w) ∧
  batch_generate_replies (xs ++ ys) None w
  = let '(results1, w1) := batch_generate_replies xs None w in
    let '(results2, w2) := batch_generate_replies ys None w1 in
    (results1 ++ results2, w2).
Proof.
  split; [done|]. unfold CommentReplyAI.batch_generate_replies.
  cbn [default from_option id]. rewrite batch_loop_app.
  destruct (batch_loop 0 xs ∅ [] w) as [results1 w1].
  apply batch_loop_no_overrides.
Qed.

End Runtime.

Lemma batch_reads_overrides_in_range_witness :
  batch_generate_replies ascii_lower Fixtures.answering Fixtures.settings
    ["Thank you so much for this!"; "Nice post."]
    (Some {[ (-1) := "witty"; 0 := "empathetic"; 2 := "humble" ]}) 0%nat
  = batch_generate_replies ascii_lower Fixtures.answering Fixtures.settings
      ["Thank you so much for this!"; "Nice post."]
      (Some {[ 0 := "empathetic" ]}) 0%nat.
Proof.
  apply batch_reads_overrides_in_range. cbn [length]. intros i Hi.
  assert (i = 0 ∨ i = 1) as [-> | ->] by lia; reflexivity.
Defined.

End ReplyFacts.

(** ** The constructor and [generate_comment_reply] *)

Module StartupFacts.
Import PyStr Py PromptGenerator CommentReplyAI ToneCatalogue Spec Startup.
Import Vocabulary PyStrFacts OrchestratorFacts.

Section Runtime.
Context (int_of_str : string → outcome Z).
Context (float_of_str : string → outcome float).
Context {World : Type}.
Context (OpenAI :
           string →
           outcome (ChatRequest → World → outcome ChatCompletion * World)).
Context (str_lower : string → string).

#[local] Abbreviation init := (Startup.init int_of_str float_of_str OpenAI).
#[local] Abbreviation generate_comment_reply :=
  (Startup.generate_comment_reply int_of_str float_of_str OpenAI str_lower).

(** X15. Without a usable key, neither as argument nor in the environment
    (absent or empty in both places), the constructor raises [ValueError]
    with its message, before it reads any other setting. *)
Theorem init_without_key (api_key : option string)
    (env : gmap string string) :
  truthy api_key = false →
  truthy (getenv env "OPENAI_API_KEY") = false →
  init api_key env = Raises (ValueError key_required).
Proof.
  intros Harg Henv. unfold Startup.init, or_option. by rewrite Harg, Henv.
Qed.

Lemma truthy_Some (o : option string) :
  truthy o = true → ∃ c s, o = Some (String c s).
Proof. destruct o as [[|c s]|]; try done. eauto. Qed.

(** X16. When the constructor returns, the key of the object is not empty:
    it is the argument when that is a non-empty string and the
    environment's otherwise; the client is built from that key; the model
    is the environment's or [gpt-4]; the three settings are what [int] and
    [float] read from the environment's texts or from [300], [0.7] and
    [0.9]. *)
Theorem init_returns (api_key : option string) (env : gmap string string)
    (self : Self)
    (client : ChatRequest → World → outcome ChatCompletion * World) :
  init api_key env = Returns (self, client) →
  CommentReplyAI.api_key self ≠ EmptyString ∧
  Some (CommentReplyAI.api_key self)
  = or_option api_key (getenv env "OPENAI_API_KEY") ∧
  OpenAI (CommentReplyAI.api_key self) = Returns client ∧
  model self = getenv_or env "OPENAI_MODEL" "gpt-4" ∧
  int_of_str (getenv_or env "MAX_TOKENS" "300") = Returns (max_tokens self) ∧
  float_of_str (getenv_or env "TEMPERATURE" "0.7")
  = Returns (temperature self) ∧
  float_of_str (getenv_or env "TOP_P" "0.9") = Returns (top_p self).
Proof.
  unfold Startup.init.
  change (if truthy api_key then api_key else getenv env "OPENAI_API_KEY")
    with (or_option api_key (getenv env "OPENAI_API_KEY")).
  destruct (or_option api_key (getenv env "OPENAI_API_KEY"))
    as [[|c key]|]; [done| |done].
  cbn [truthy negb default from_option id].
  destruct (int_of_str _) as [tokens|] eqn:Htokens; [|done].
  cbn [mbind outcome_bind mret outcome_ret].
  destruct (float_of_str (getenv_or env "TEMPERATURE" "0.7"))
    as [temp|] eqn:Htemp; [|done].
  cbn [mbind outcome_bind mret outcome_ret].
  destruct (float_of_str (getenv_or env "TOP_P" "0.9"))
    as [top|] eqn:Htop; [|done].
  cbn [mbind outcome_bind mret outcome_ret].
  destruct (OpenAI (String c key)) as [client'|] eqn:Hclient; [|done].
  cbn [mbind outcome_bind mret outcome_ret].
  intros [= <- <-]. by cbn.
Qed.

(** X17. [generate_comment_reply] raises exactly what the constructor
    raises, and then the provider has not been called; a failure of the
    provider is never raised, it is reported in the dictionary. *)
Theorem generate_comment_reply_raises (comment : string)
    (api_key tone : option string) (env : gmap string string)
    (w w' : World) (e : exn) :
  generate_comment_reply comment api_key tone env w = (Raises e, w') ↔
  init api_key env = Raises e ∧ w' = w.
Proof.
  unfold Startup.generate_comment_reply.
  destruct (init api_key env) as [[self client]|e0].
  - destruct (generate_reply _ _ _ _ _ _ _) as [result w1].
    split; [intros [=] | intros [[=] _]].
  - split; [by intros [= -> ->] | by intros [[= ->] ->]].
Qed.

(** X18. When the constructor returns, [generate_comment_reply] returns the
    dictionary of [generate_reply] for the new object, with [tone] as the
    override and no model argument: a reply dictionary that reports the
    sentiment of the comment and the resolved tone. *)
Theorem generate_comment_reply_returns (comment : string)
    (api_key tone : option string) (env : gmap string string) (w : World)
    (self : Self)
    (client : ChatRequest → World → outcome ChatCompletion * World) :
  init api_key env = Returns (self, client) →
  ∃ result w',
    generate_comment_reply comment api_key tone env w = (Returns result, w') ∧
    (result, w') = generate_reply str_lower client self comment tone None w ∧
    reply_shape result ∧
    result !! "sentiment_detected"
    = Some (PyStr (analyze_comment_sentiment str_lower comment)) ∧
    result !! "tone_used"
    = Some (PyStr (resolve_tone
                     (analyze_comment_sentiment str_lower comment) tone)).
Proof.
  intros Hinit. unfold Startup.generate_comment_reply. rewrite Hinit.
  destruct (generate_reply str_lower client self comment tone None w)
    as [result w'] eqn:Hgen.
  exists result, w'. split; [done|]. split; [done|].
  destruct (generate_reply_result str_lower client self comment tone None w)
    as [answer Hanswer].
  rewrite Hgen in Hanswer. cbn [fst] in Hanswer. subst result.
  split; [apply reply_of_shape|].
  split; [apply reply_of_sentiment_detected | apply reply_of_tone_used].
Qed.

End Runtime.

Import StartupFixtures.

Lemma init_without_key_witness :
  init int_of_digits float_of_default client_of (Some EmptyString)
    {[ "MAX_TOKENS" := "many" ]}
  = Raises (ValueError key_required).
Proof. apply init_without_key; reflexivity. Defined.

Lemma init_returns_witness :
  let self :=
    {| api_key := "sk-arg"; model := "gpt-4"; max_tokens := 150;
       temperature := Fixtures.settings.(temperature);
       top_p := Fixtures.settings.(top_p) |} in
  init int_of_digits float_of_default client_of (Some "sk-arg")
    {[ "OPENAI_API_KEY" := "sk-env"; "MAX_TOKENS" := "150" ]}
  = Returns (self, Fixtures.answering) ∧
  api_key self ≠ EmptyString.
Proof.
  intros self.
  assert (init int_of_digits float_of_default client_of (Some "sk-arg")
            {[ "OPENAI_API_KEY" := "sk-env"; "MAX_TOKENS" := "150" ]}
          = Returns (self, Fixtures.answering)) as Hinit
    by (vm_compute; reflexivity).
  split; [exact Hinit|].
  exact (proj1 (init_returns _ _ _ _ _ _ _ Hinit)).
Defined.

Lemma generate_comment_reply_returns_witness :
  ∃ result w',
    generate_comment_reply int_of_digits float_of_default client_of
      ascii_lower "Nice post." (Some "sk-arg") (Some "witty") ∅ 0%nat
    = (Returns result, w') ∧
    result !! "tone_used" = Some (PyStr "witty").
Proof.
  assert (init int_of_digits float_of_default client_of (Some "sk-arg") ∅
          = Returns ({| api_key := "sk-arg"; model := "gpt-4";
                        max_tokens := 300;
                        temperature := Fixtures.settings.(temperature);
                        top_p := Fixtures.settings.(top_p) |},
                     Fixtures.answering)) as Hinit
    by (vm_compute; reflexivity).
  destruct (generate_comment_reply_returns int_of_digits float_of_default
              client_of ascii_lower "Nice post." (Some "sk-arg")
              (Some "witty") ∅ 0%nat _ _ Hinit)
    as (result & w' & Hrun & _ & _ & _ & Htone).
  exists result, w'. split; [exact Hrun | exact Htone].
Defined.

End StartupFacts.

(** ** The tester *)

Module TesterFacts.
Import PyStr Py PromptGenerator CommentReplyAI ToneCatalogue Spec Startup.
Import Tester Vocabulary PyStrFacts OrchestratorFacts CatalogueFacts.
Import StartupFacts.

Lemma count_sum_count_one (key : value) (counts : gmap value Z) :
  count_sum (count_one key counts) = count_sum counts + 1.
Proof.
  unfold count_sum, count_one.
  set (add := λ (_ : value) (n total : Z), n + total).
  assert (∀ (m : gmap value Z) k n,
            m !! k = None →
            map_fold add 0 (<[k:=n]> m) = n + map_fold add 0 m) as Hins.
  { intros m k n Hk. apply (map_fold_insert_L add); [|done].
    intros. unfold add. lia. }
  destruct (counts !! key) as [n|] eqn:Hkey; cbn [default from_option id].
  - rewrite <- (insert_delete_eq counts key (n + 1)).
    rewrite Hins by apply lookup_delete_eq.
    pose proof (Hins (delete key counts) key n (lookup_delete_eq _ _)) as Hn.
    rewrite insert_delete_id in Hn by done. lia.
  - rewrite Hins by done. lia.
Qed.

Lemma update_stats_step (result : gmap string value) (stats : Stats) :
  let stats' := update_stats result stats in
  let gain := if value_truthy (result !! "success") then 1 else 0 in
  total_messages stats' = total_messages stats + 1 ∧
  successful_replies stats' = successful_replies stats + gain ∧
  count_sum (tone_usage stats') = count_sum (tone_usage stats) + gain ∧
  count_sum (sentiment_distribution stats')
  = count_sum (sentiment_distribution stats) + gain.
Proof.
  unfold update_stats. destruct (value_truthy (result !! "success")); cbn.
  - by rewrite !count_sum_count_one.
  - repeat split; lia.
Qed.

Lemma successes_cons (result : gmap string value)
    (results : list (gmap string value)) :
  Z.of_nat (length (successes (result :: results)))
  = (if value_truthy (result !! "success") then 1 else 0)
    + Z.of_nat (length (successes results)).
Proof.
  unfold successes. rewrite filter_cons. case_decide as Hd.
  - rewrite Hd. cbn [length]. rewrite Nat2Z.inj_succ. unfold Z.succ.
    apply Z.add_comm.
  - apply not_true_is_false in Hd. by rewrite Hd.
Qed.

Lemma stats_fold (results : list (gmap string value)) :
  ∀ stats,
    let stats' :=
      foldl (λ stats result, update_stats result stats) stats results in
    total_messages stats' = total_messages stats + Z.of_nat (length results) ∧
    successful_replies stats'
    = successful_replies stats + Z.of_nat (length (successes results)) ∧
    count_sum (tone_usage stats')
    = count_sum (tone_usage stats) + Z.of_nat (length (successes results)) ∧
    count_sum (sentiment_distribution stats')
    = count_sum (sentiment_distribution stats)
      + Z.of_nat (length (successes results)).
Proof.
  induction results as [|result results IH]; intros stats.
  - cbn. repeat split; lia.
  - cbn [foldl]. destruct (IH (update_stats result stats)) as (H1 & H2 & H3 & H4).
    destruct (update_stats_step result stats) as (S1 & S2 & S3 & S4).
    cbv zeta. rewrite H1, H2, H3, H4, S1, S2, S3, S4, successes_cons.
    cbn [length]. repeat split; lia.
Qed.

(** X19. After any sequence of calls of [update_stats] from the initial
    statistics, [total_messages] is the number of calls,
    [successful_replies] is the number of results whose [success] was
    truthy and is at most [total_messages], and the counts of [tone_usage]
    and those of [sentiment_distribution] each add up to
    [successful_replies]. *)
Theorem update_stats_totals (results : list (gmap string value)) :
  let stats := stats_after results in
  total_messages stats = Z.of_nat (length results) ∧
  successful_replies stats = Z.of_nat (length (successes results)) ∧
  0 ≤ successful_replies stats ≤ total_messages stats ∧
  count_sum (tone_usage stats) = successful_replies stats ∧
  count_sum (sentiment_distribution stats) = successful_replies stats.
Proof.
  destruct (stats_fold results initial_stats) as (H1 & H2 & H3 & H4).
  cbv zeta in *. unfold stats_after. rewrite H1, H2, H3, H4. cbn.
  assert (length (successes results) ≤ length results)%nat
    by apply length_filter.
  repeat split; lia.
Qed.

Lemma lower_char_idem (c : ascii) : lower_char (lower_char c) = lower_char c.
Proof. by destruct c as [[] [] [] [] [] [] [] []]. Qed.

Lemma lower_upper_char (c : ascii) : lower_char (upper_char c) = lower_char c.
Proof. by destruct c as [[] [] [] [] [] [] [] []]. Qed.

Lemma lower_title_from (previous_is_cased : bool) (s : string) :
  ascii_lower (title_from previous_is_cased s) = ascii_lower s.
Proof.
  revert previous_is_cased. induction s as [|c s IH]; intros b; [done|].
  simpl. rewrite IH. by destruct b; rewrite ?lower_char_idem, ?lower_upper_char.
Qed.

(** X20. Lower-casing a title-cased text gives the lower-cased text, so the
    select box can only send what the composer knows: [Auto] gives no
    override, the option of each available tone gives back that tone, and
    every option gives no override or a tone [validate_tone] accepts. *)
Theorem tone_options_round_trip :
  (∀ s, ascii_lower (ascii_title s) = ascii_lower s) ∧
  custom_tone_of "Auto" = None ∧
  (∀ tone, tone ∈ get_available_tones →
     ascii_title tone ∈ tone_options ∧
     custom_tone_of (ascii_title tone) = Some tone) ∧
  (∀ option, option ∈ tone_options →
     custom_tone_of option = None ∨
     ∃ tone, custom_tone_of option = Some tone ∧ validate_tone tone = true).
Proof.
  split; [intros s; apply lower_title_from|]. split; [done|].
  assert (∀ tone, tone ∈ get_available_tones →
            ascii_title tone ∈ tone_options ∧
            custom_tone_of (ascii_title tone) = Some tone) as Hback.
  { intros tone Hin. split.
    - unfold tone_options. apply list_elem_of_further.
      by apply list_elem_of_fmap_2.
    - apply (proj1 (available_tones_known tone)) in Hin.
      by each_known_tone Hin. }
  split; [done|].
  intros option. unfold tone_options. rewrite elem_of_cons, list_elem_of_fmap.
  intros [-> | (tone & -> & Hin)]; [by left|]. right. exists tone.
  split; [by apply Hback|]. by apply validate_tone_true, available_tones_known.
Qed.

(** X21. The example comment of each tone the mapping can give classifies to
    the sentiment that maps to that tone; the example comment of [witty]
    classifies as neutral and so gets [inviting]. (With the ASCII
    [str.lower].) *)
Theorem examples_match_classifier (tone : string) :
  tone ∈ get_available_tones →
  ∃ comment,
    get_tone_examples tone !! "comment" = Some comment ∧
    determine_tone (analyze_comment_sentiment ascii_lower comment)
    = (if String.eqb tone "witty" then "inviting" else tone).
Proof.
  intros Hin. apply (proj1 (available_tones_known tone)) in Hin.
  each_known_tone Hin; eexists;
    (split; [vm_compute; reflexivity | vm_compute; reflexivity]).
Qed.

Lemma examples_match_classifier_witness :
  ∃ comment,
    get_tone_examples "biblical" !! "comment" = Some comment ∧
    determine_tone (analyze_comment_sentiment ascii_lower comment)
    = "biblical".
Proof. apply (examples_match_classifier "biblical"). compute_done. Defined.

Section Runtime.
Context (int_of_str : string → outcome Z).
Context (float_of_str : string → outcome float).
Context {World : Type}.
Context (OpenAI :
           string →
           outcome (ChatRequest → World → outcome ChatCompletion * World)).
Context (str_lower : string → string).
Context (chat_completions_create :
           ChatRequest → World → outcome ChatCompletion * World).
Context (self : Self).

#[local] Abbreviation init := (Startup.init int_of_str float_of_str OpenAI).
#[local] Abbreviation initialize_ai_system :=
  (Tester.initialize_ai_system int_of_str float_of_str OpenAI).
#[local] Abbreviation generate_reply :=
  (CommentReplyAI.generate_reply str_lower chat_completions_create self).
#[local] Abbreviation analyze_comment_sentiment :=
  (CommentReplyAI.analyze_comment_sentiment str_lower).

(** X22. [initialize_ai_system] raises nothing; it gives a system exactly
    when the constructor, called without argument, returns one, and then
    it is that one. When the environment has no usable key the message is
    the one about the missing key, and otherwise a failure's message ends
    with the text of the exception. *)
Theorem initialize_ai_system_result (env : gmap string string) :
  (initialize_ai_system env).1
  = match init None env with
    | Returns ai_system => Some ai_system
    | Raises _ => None
    end ∧
  (truthy (getenv env "OPENAI_API_KEY") = false →
   (initialize_ai_system env).2
   = "❌ OpenAI API key not found. Please set OPENAI_API_KEY in your .env file.") ∧
  (∀ e, truthy (getenv env "OPENAI_API_KEY") = true →
        init None env = Raises e →
        (initialize_ai_system env).2
        = "❌ Error initializing AI system: " +:+ exn_str e).
Proof.
  unfold Tester.initialize_ai_system.
  destruct (truthy (getenv env "OPENAI_API_KEY")) eqn:Hkey; cbn [negb].
  - split; [by destruct (init None env)|]. split; [done|].
    intros e _ ->. done.
  - rewrite (init_without_key _ _ _ None env eq_refl Hkey). by repeat split.
Qed.

(** X23. What [update_stats] records for a dictionary of [generate_reply]:
    a success counts the tone and the sentiment the dictionary reports,
    as strings (the fallback key [unknown] is not used); a failure only
    counts as a message. *)
Theorem update_stats_generate_reply (comment : string)
    (custom_tone model_arg : option string) (w : World) (stats : Stats) :
  let result := (generate_reply comment custom_tone model_arg w).1 in
  let sentiment := analyze_comment_sentiment comment in
  let tone := resolve_tone sentiment custom_tone in
  (result !! "success" = Some (PyBool true) ∧
   update_stats result stats =
     {| total_messages := total_messages stats + 1;
        successful_replies := successful_replies stats + 1;
        tone_usage := count_one (PyStr tone) (tone_usage stats);
        sentiment_distribution :=
          count_one (PyStr sentiment) (sentiment_distribution stats) |}) ∨
  (result !! "success" = Some (PyBool false) ∧
   update_stats result stats =
     {| total_messages := total_messages stats + 1;
        successful_replies := successful_replies stats;
        tone_usage := tone_usage stats;
        sentiment_distribution := sentiment_distribution stats |}).
Proof.
  intros result sentiment tone. subst result.
  destruct (generate_reply_result str_lower chat_completions_create self
              comment custom_tone model_arg w) as [answer ->].
  fold sentiment. fold tone. unfold update_stats.
  destruct answer as [text|e]; unfold reply_of;
    match goal with
    | |- context [reply_dict ?r ?t ?s ?ok ?err] =>
        destruct (reply_dict_lookup r t s ok err) as (_ & -> & -> & -> & _)
    end; cbn; auto.
Qed.

End Runtime.
End TesterFacts.
